(** * Coping-tool recommendation engine (lib/copingRecommendation.ts)

    A shallow embedding of the recommendation engine: keyword sentiment
    analysis, mood-intensity lookup, additive scoring, explanation
    generation, ranking and context construction, followed by the
    properties the specification states about them.

    Conventions.  TypeScript types are erased at run time, so a [Mood] is
    the string the caller stored; the union types of the tool catalog
    ([CopingCategory], [IntensityLevel]) are inductive enumerations.  Texts
    are strings of 8-bit characters and [toLowerCase] folds the ASCII
    letters; numbers are integers, as the data model has them. *)

From Stdlib Require Import ZArith Lia List Bool Ascii String Sorted Permutation.
Import ListNotations.
Open Scope string_scope.
Open Scope Z_scope.

(** ** The JavaScript built-ins the engine calls *)

Module Js.

(** [String.prototype.toLowerCase] on text of ASCII characters: there the
    built-in maps A-Z to a-z, character by character, and keeps every other
    character.  On other text the built-in follows the Unicode case
    mapping, which this fold does not describe: statements that depend on
    how a text is lowered either assume the text [isAscii] or take the
    lower-casing function as a parameter ([hostLowerCase]). *)
Definition lowerChar (c : ascii) : ascii :=
  let n := N_of_ascii c in
  if (N.leb 65 n && N.leb n 90)%bool then ascii_of_N (n + 32) else c.

Fixpoint toLowerCase (s : string) : string :=
  match s with
  | EmptyString => EmptyString
  | String c s' => String (lowerChar c) (toLowerCase s')
  end.

(** [s.startsWith(kw)]: the helper of the substring search. *)
Fixpoint startsWith (s kw : string) {struct kw} : bool :=
  match kw, s with
  | EmptyString, _ => true
  | String _ _, EmptyString => false
  | String a kw', String b s' => Ascii.eqb a b && startsWith s' kw'
  end.

(** [s.includes(kw)]: [kw] occurs in [s] at some position. *)
Fixpoint includes (s kw : string) : bool :=
  startsWith s kw ||
  match s with
  | EmptyString => false
  | String _ s' => includes s' kw
  end.

(** [arr.join(sep)] on an array of strings. *)
Fixpoint join (sep : string) (l : list string) : string :=
  match l with
  | [] => EmptyString
  | [x] => x
  | x :: l' => x ++ sep ++ join sep l'
  end.

(** [arr.slice(0, n)]. *)
Definition slice0 {A : Type} (n : nat) (l : list A) : list A := firstn n l.

(** [arr.includes(x)] on an array of strings. *)
Definition arrayIncludes (l : list string) (x : string) : bool :=
  existsb (String.eqb x) l.

(** [arr.some(cb)] for a callback that may update captured state: the
    callback is run on the elements in index order until one returns
    true, the state being threaded through the calls. *)
Fixpoint some {A St : Type} (cb : A -> St -> bool * St) (l : list A) (st : St)
  : bool * St :=
  match l with
  | [] => (false, st)
  | x :: l' =>
      let (hit, st') := cb x st in
      if hit then (true, st') else some cb l' st'
  end.

(** [arr.sort(cmp)]: the order is fixed by the comparator and the sort is
    stable (ECMAScript 2019 and later), which determines the result for a
    consistent comparator; written here as an insertion sort that puts an
    element in front of the first one it does not have to follow. *)
Fixpoint insert {A : Type} (cmp : A -> A -> Z) (x : A) (l : list A) : list A :=
  match l with
  | [] => [x]
  | y :: l' => if cmp x y <=? 0 then x :: y :: l' else y :: insert cmp x l'
  end.

Fixpoint sort {A : Type} (cmp : A -> A -> Z) (l : list A) : list A :=
  match l with
  | [] => []
  | x :: l' => insert cmp x (sort cmp l')
  end.

(** A value read where a number is expected.  [NonNumeric] stands for
    [undefined] and for any other value that converts to NaN: every
    relational comparison with it is false. *)
Inductive number : Type :=
| Num (z : Z)
| NonNumeric.

Definition geb (x : number) (k : Z) : bool :=
  match x with
  | Num z => k <=? z
  | NonNumeric => false
  end.

(** The outcome of a call: it returns a value or throws. *)
Inductive completion (A : Type) : Type :=
| Normal (a : A)
| Throw (msg : string).
Arguments Normal {A} a.
Arguments Throw {A} msg.

End Js.

(** ** Type definitions *)

Definition Mood : Type := string.

(** The keys of [Record<Mood, number>] in [getMoodIntensity]. *)
Definition MOODS : list Mood :=
  ["anxious"; "frustrated"; "sad"; "neutral"; "calm"; "happy"].

Inductive CopingCategory : Type :=
| breathing | grounding | cognitive | movement | reflection.

Inductive IntensityLevel : Type := low | medium | high.

Definition categoryEqb (a b : CopingCategory) : bool :=
  match a, b with
  | breathing, breathing | grounding, grounding | cognitive, cognitive
  | movement, movement | reflection, reflection => true
  | _, _ => false
  end.

Definition levelEqb (a b : IntensityLevel) : bool :=
  match a, b with
  | low, low | medium, medium | high, high => true
  | _, _ => false
  end.

(** The text a category has inside a template literal. *)
Definition categoryText (c : CopingCategory) : string :=
  match c with
  | breathing => "breathing"
  | grounding => "grounding"
  | cognitive => "cognitive"
  | movement => "movement"
  | reflection => "reflection"
  end.

Record CopingTool : Type := mkTool {
  id : string;
  title : string;
  description : string;
  category : CopingCategory;
  supportedMoods : list Mood;
  intensityLevel : IntensityLevel;
  durationMinutes : Z;
  icon : string;
  color : string;
  type : string
}.

(** [RecommendedTool extends CopingTool]: the spread tool and two fields. *)
Record RecommendedTool : Type := mkRecommended {
  tool : CopingTool;
  score : Z;
  reason : string
}.

Record RecommendationContext : Type := mkContext {
  currentMood : option Mood;
  moodIntensity : Js.number;
  recentChatSummary : string;
  chatKeywords : list string
}.

(** ** Sentiment and keyword analysis *)

Definition CRISIS_KEYWORDS : list string :=
  ["panic"; "overwhelmed"; "heart racing"; "can't breathe"; "scared";
   "terrified"; "anxiety attack"; "out of control"; "dizzy"; "shaking"].

Definition LOW_MOOD_KEYWORDS : list string :=
  ["tired"; "hopeless"; "alone"; "sad"; "depressed"; "empty";
   "worthless"; "numb"; "crying"; "heavy"; "dark"].

Definition STRESS_KEYWORDS : list string :=
  ["stressed"; "overloaded"; "too much"; "pressure"; "deadline";
   "exhausted"; "tense"; "tight"; "sore"; "headache"].

Record Sentiment : Type := mkSentiment {
  keywords : list string;
  hasCrisis : bool;
  hasLowMood : bool;
  hasStress : bool
}.

(** The arrow function given to [some]: it pushes the keyword on the
    captured [keywords] array when the lowered text includes it. *)
Definition recordMatch (lower : string) (kw : string) (keywords : list string)
  : bool * list string :=
  if Js.includes lower kw then (true, (keywords ++ [kw])%list) else (false, keywords).

Definition analyzeChatSentiment (chatText : string) : Sentiment :=
  let lower := Js.toLowerCase chatText in
  let keywords := [] in
  let (hasCrisis, keywords) := Js.some (recordMatch lower) CRISIS_KEYWORDS keywords in
  let (hasLowMood, keywords) := Js.some (recordMatch lower) LOW_MOOD_KEYWORDS keywords in
  let (hasStress, keywords) := Js.some (recordMatch lower) STRESS_KEYWORDS keywords in
  mkSentiment keywords hasCrisis hasLowMood hasStress.

(** ** Mood intensity mapping *)

(** A mood used as a condition: [null] and the empty string are falsy. *)
Definition truthy (mood : option Mood) : bool :=
  match mood with
  | Some m => negb (m =? EmptyString)%string
  | None => false
  end.

Definition intensityMap : list (Mood * Z) :=
  [("anxious", 8); ("frustrated", 7); ("sad", 6);
   ("neutral", 4); ("calm", 3); ("happy", 2)].

(** [intensityMap[mood]]: the entry of the table, and no number for a key
    the table does not own. *)
Fixpoint lookup (table : list (Mood * Z)) (mood : Mood) : Js.number :=
  match table with
  | [] => Js.NonNumeric
  | (k, v) :: table' => if (k =? mood)%string then Js.Num v else lookup table' mood
  end.

Definition getMoodIntensity (mood : option Mood) : Js.number :=
  match mood with
  | Some m => if truthy mood then lookup intensityMap m else Js.Num 5
  | None => Js.Num 5
  end.

(** ** Core recommendation algorithm *)

Definition inCategory (t : CopingTool) (c1 c2 : CopingCategory) : bool :=
  categoryEqb (category t) c1 || categoryEqb (category t) c2.

(** [context.currentMood && tool.supportedMoods.includes(context.currentMood)] *)
Definition supportsCurrentMood (t : CopingTool) (context : RecommendationContext) : bool :=
  match currentMood context with
  | Some m => truthy (Some m) && Js.arrayIncludes (supportedMoods t) m
  | None => false
  end.

(** [!context.currentMood || context.currentMood === "neutral"] *)
Definition unsureOrNeutral (context : RecommendationContext) : bool :=
  negb (truthy (currentMood context)) ||
  match currentMood context with
  | Some m => (m =? "neutral")%string
  | None => false
  end.

Definition scoreTool (t : CopingTool) (context : RecommendationContext) : Z :=
  let score := 0 in
  (* 1. mood compatibility *)
  let score :=
    if supportsCurrentMood t context then score + 40
    else if truthy (currentMood context) then score + 20
    else score in
  (* 2. chat sentiment alignment *)
  let sentiment := analyzeChatSentiment (recentChatSummary context) in
  let score :=
    if hasCrisis sentiment then
      if inCategory t breathing grounding then score + 30 else score
    else if hasLowMood sentiment then
      if inCategory t reflection cognitive then score + 30 else score
    else if hasStress sentiment then
      if inCategory t movement grounding then score + 30 else score
    else score in
  (* 3. intensity matching *)
  let score :=
    if Js.geb (moodIntensity context) 7 then
      let score := if levelEqb (intensityLevel t) high then score + 20 else score in
      if levelEqb (intensityLevel t) medium then score + 10 else score
    else if Js.geb (moodIntensity context) 4 then
      let score := if levelEqb (intensityLevel t) medium then score + 20 else score in
      if levelEqb (intensityLevel t) low then score + 15 else score
    else
      let score := if levelEqb (intensityLevel t) low then score + 20 else score in
      if levelEqb (intensityLevel t) medium then score + 10 else score in
  (* 4. duration preference *)
  let score :=
    if unsureOrNeutral context then
      if durationMinutes t <=? 3 then score + 10
      else if durationMinutes t <=? 5 then score + 5
      else score
    else score in
  Z.min score 100.

(** An array after [push]. *)
Definition push (reasons : list string) (r : string) : list string :=
  (reasons ++ [r])%list.

(** The [reasons] array of [generateExplanation] once its three groups of
    pushes have run. *)
Definition explanationReasons (t : CopingTool) (context : RecommendationContext)
  : list string :=
  let reasons := [] in
  let sentiment := analyzeChatSentiment (recentChatSummary context) in
  let reasons :=
    match currentMood context with
    | Some moodLabel =>
        if truthy (Some moodLabel)
        then push reasons ("you felt " ++ moodLabel ++ " today")
        else reasons
    | None => reasons
    end in
  let reasons :=
    if hasCrisis sentiment && inCategory t breathing grounding then
      push reasons "you mentioned feeling overwhelmed"
    else if hasLowMood sentiment && inCategory t reflection cognitive then
      push reasons "you expressed feelings of sadness or hopelessness"
    else if hasStress sentiment && inCategory t movement grounding then
      push reasons "you mentioned feeling stressed or tense"
    else reasons in
  if Js.geb (moodIntensity context) 7 && levelEqb (intensityLevel t) high
  then push reasons "this offers quick relief"
  else reasons.

Definition generateExplanation (t : CopingTool) (context : RecommendationContext)
  : string :=
  let reasons := explanationReasons t context in
  if (List.length reasons =? 0)%nat then
    "This " ++ categoryText (category t) ++ " technique is gentle and effective."
  else
    let reasonText := Js.join " and " reasons in
    "This technique is suggested because " ++ reasonText ++ ".".

(** The comparator given to [sort]: [(a, b) => b.score - a.score]. *)
Definition byScoreDescending (a b : RecommendedTool) : Z := score b - score a.

Definition getRecommendedCopingTools
  (tools : list CopingTool) (context : RecommendationContext)
  : list RecommendedTool :=
  let scoredTools :=
    map (fun t => mkRecommended t (scoreTool t context) (generateExplanation t context))
        tools in
  Js.sort byScoreDescending scoredTools.

(** ** Context construction *)

Record CheckIn : Type := mkCheckIn {
  mood : Mood;
  createdAt : string
}.

Record ChatMessage : Type := mkMessage {
  text : string
}.

(** What the host's [Date] supplies: the calendar day of the call,
    [new Date().toDateString()], and the calendar day of a stored
    timestamp, [new Date(createdAt).toDateString()]. *)
Record Calendar : Type := mkCalendar {
  today : string;
  toDateString : string -> string
}.

Definition buildRecommendationContext
  (cal : Calendar) (checkIns : list CheckIn) (chatMessages : option (list ChatMessage))
  : RecommendationContext :=
  let todayCheckIns :=
    filter (fun item => (toDateString cal (createdAt item) =? today cal)%string) checkIns in
  let currentMood :=
    match todayCheckIns with
    | first :: _ => Some (mood first)
    | [] => None
    end in
  let moodIntensity := getMoodIntensity currentMood in
  let recentChatSummary :=
    match chatMessages with
    | Some messages => Js.join " " (map text (Js.slice0 5 messages))
    | None => EmptyString
    end in
  let keywords := keywords (analyzeChatSentiment recentChatSummary) in
  mkContext currentMood moodIntensity recentChatSummary keywords.

(** The body of [buildRecommendationContext] has no [throw], and none of
    its calls throws on arrays of records: every call completes normally. *)
Definition callBuildRecommendationContext
  (cal : Calendar) (checkIns : list CheckIn) (chatMessages : option (list ChatMessage))
  : Js.completion RecommendationContext :=
  Js.Normal (buildRecommendationContext cal checkIns chatMessages).

(** ** The evidence-based catalog (lib/copingToolsData.ts)

    The [icon] of an entry is the name of its Lucide component. *)

Definition boxBreathing : CopingTool :=
  mkTool "box-breathing" "Box Breathing"
         "4-4-4-4 breathing used by Navy SEALs to manage stress"
         breathing ["anxious"; "frustrated"; "neutral"] high 2
         "Wind" "bg-mint text-mint-foreground" "box-breathing".

Definition breathing478 : CopingTool :=
  mkTool "478-breathing" "4-7-8 Breathing"
         "Deeply calming breath pattern for sleep and anxiety"
         breathing ["anxious"; "frustrated"; "sad"; "neutral"] medium 3
         "Wind" "bg-mint text-mint-foreground" "478-breathing".

Definition simpleBreathing : CopingTool :=
  mkTool "simple-breathing" "Simple Breathing"
         "Gentle 4-4 breathing to calm your nervous system"
         breathing ["anxious"; "frustrated"; "neutral"; "calm"] low 2
         "Wind" "bg-mint text-mint-foreground" "breathing".

Definition grounding54321 : CopingTool :=
  mkTool "54321-grounding" "5-4-3-2-1 Grounding"
         "Use your five senses to anchor yourself in the present moment"
         grounding ["anxious"; "frustrated"; "sad"] high 3
         "Mountain" "bg-lavender text-lavender-foreground" "grounding".

Definition bodyScan : CopingTool :=
  mkTool "body-scan" "Body Scan Meditation"
         "Notice sensations from head to toe to reconnect with your body"
         grounding ["anxious"; "frustrated"; "neutral"; "calm"] medium 5
         "Mountain" "bg-lavender text-lavender-foreground" "body-scan".

Definition progressiveMuscleRelaxation : CopingTool :=
  mkTool "progressive-muscle-relaxation" "Progressive Muscle Relaxation"
         "Tense and release muscle groups to release physical tension"
         grounding ["anxious"; "frustrated"; "neutral"] medium 7
         "Activity" "bg-lavender text-lavender-foreground" "pmr".

Definition cognitiveReframing : CopingTool :=
  mkTool "cognitive-reframing" "Cognitive Reframing"
         "Challenge unhelpful thoughts with evidence-based questions"
         cognitive ["anxious"; "sad"; "frustrated"; "neutral"] medium 5
         "Brain" "bg-blue-100 text-blue-900" "cognitive-reframing".

Definition thoughtJournaling : CopingTool :=
  mkTool "thought-journaling" "Thought Journaling"
         "Write down your thoughts to gain distance and perspective"
         cognitive ["anxious"; "sad"; "frustrated"; "neutral"] low 10
         "BookHeart" "bg-blue-100 text-blue-900" "thought-journaling".

Definition affirmations : CopingTool :=
  mkTool "affirmations" "Self-Affirmations"
         "Gentle reminders of your strength, worth, and resilience"
         reflection ["sad"; "frustrated"; "neutral"; "anxious"] low 2
         "Sparkles" "bg-peach text-peach-foreground" "affirmations".

Definition gratitudeReflection : CopingTool :=
  mkTool "gratitude-reflection" "Gratitude Reflection"
         "Notice three things you're grateful for right now"
         reflection ["sad"; "neutral"; "calm"; "happy"] low 3
         "Heart" "bg-peach text-peach-foreground" "gratitude".

Definition selfCompassion : CopingTool :=
  mkTool "self-compassion" "Self-Compassion Break"
         "Treat yourself with the kindness you'd offer a friend"
         reflection ["sad"; "frustrated"; "anxious"; "neutral"] low 4
         "Heart" "bg-peach text-peach-foreground" "self-compassion".

Definition quickExercises : CopingTool :=
  mkTool "quick-exercises" "Movement Reset"
         "Simple stretches and movements to release tension"
         movement ["frustrated"; "anxious"; "neutral"; "happy"] medium 5
         "Dumbbell" "bg-secondary text-secondary-foreground" "exercises".

Definition EVIDENCE_BASED_COPING_TOOLS : list CopingTool :=
  [boxBreathing; breathing478; simpleBreathing;
   grounding54321; bodyScan; progressiveMuscleRelaxation;
   cognitiveReframing; thoughtJournaling;
   affirmations; gratitudeReflection; selfCompassion;
   quickExercises].

(** The contexts of the three scenarios of the specification. *)
Definition scenarioA : RecommendationContext :=
  mkContext (Some "anxious") (Js.Num 8)
            "I'm having a panic attack, can't breathe" [].

Definition scenarioB : RecommendationContext :=
  mkContext (Some "sad") (Js.Num 6)
            "Feeling hopeless today, everything feels heavy" [].

Definition scenarioC : RecommendationContext :=
  mkContext None (Js.Num 5) EmptyString [].

(** ** The four scoring components, as section 4.4 of the specification
       words them *)

(** a) +40 when the current mood is present and supported, +20 when it is
    present and not supported, 0 when it is absent (the empty string, which
    is no mood, counts as absent). *)
Definition moodCompatibility (t : CopingTool) (context : RecommendationContext) : Z :=
  match currentMood context with
  | None => 0
  | Some m =>
      if (m =? EmptyString)%string then 0
      else if existsb (String.eqb m) (supportedMoods t) then 40 else 20
  end.

(** b) the first sentiment flag that is set decides, by the category. *)
Definition sentimentAlignment (t : CopingTool) (context : RecommendationContext) : Z :=
  let s := analyzeChatSentiment (recentChatSummary context) in
  if hasCrisis s then
    match category t with breathing | grounding => 30 | _ => 0 end
  else if hasLowMood s then
    match category t with reflection | cognitive => 30 | _ => 0 end
  else if hasStress s then
    match category t with movement | grounding => 30 | _ => 0 end
  else 0.

(** c) three tiers of mood intensity. *)
Definition intensityMatching (t : CopingTool) (context : RecommendationContext) : Z :=
  if Js.geb (moodIntensity context) 7 then
    match intensityLevel t with high => 20 | medium => 10 | low => 0 end
  else if Js.geb (moodIntensity context) 4 then
    match intensityLevel t with medium => 20 | low => 15 | high => 0 end
  else
    match intensityLevel t with low => 20 | medium => 10 | high => 0 end.

(** d) applies when the mood is absent or neutral. *)
Definition durationPreference (t : CopingTool) (context : RecommendationContext) : Z :=
  match currentMood context with
  | Some m =>
      if ((m =? EmptyString) || (m =? "neutral"))%string then
        if durationMinutes t <=? 3 then 10
        else if durationMinutes t <=? 5 then 5 else 0
      else 0
  | None =>
      if durationMinutes t <=? 3 then 10
      else if durationMinutes t <=? 5 then 5 else 0
  end.

(** Two tools that agree on every field but [supportedMoods]. *)
Definition sameExceptMoods (t1 t2 : CopingTool) : Prop :=
  id t1 = id t2 /\ title t1 = title t2 /\ description t1 = description t2 /\
  category t1 = category t2 /\ intensityLevel t1 = intensityLevel t2 /\
  durationMinutes t1 = durationMinutes t2 /\ icon t1 = icon t2 /\
  color t1 = color t2 /\ type t1 = type t2.

(** ** Auxiliary definitions of the statements below *)

(** What one scan pushes: the first keyword of the list that the lowered
    text includes, if there is one. *)
Definition firstMatch (lower : string) (kws : list string) : list string :=
  match find (Js.includes lower) kws with
  | Some kw => [kw]
  | None => []
  end.

(** The outcome of scanning one keyword list: the flag and what was pushed. *)
Inductive scanOutcome (lower : string) (kws : list string)
  : bool -> list string -> Prop :=
| scanMiss :
    (forall kw, In kw kws -> Js.includes lower kw = false) ->
    scanOutcome lower kws false []
| scanHit : forall (earlier : list string) (kw : string) (later : list string),
    kws = (earlier ++ kw :: later)%list ->
    (forall k, In k earlier -> Js.includes lower k = false) ->
    Js.includes lower kw = true ->
    scanOutcome lower kws true [kw].

(** The identifiers and scores of a ranking. *)
Definition scores (ranked : list RecommendedTool) : list (string * Z) :=
  map (fun r => (id (tool r), score r)) ranked.

(** The order of a ranking, and the entries of one score. *)
Definition descending (a b : RecommendedTool) : Prop := score b <= score a.

Definition hasScore (v : Z) (r : RecommendedTool) : bool := score r =? v.

(** [new Date(item.createdAt).toDateString() === today] *)
Definition datedToday (cal : Calendar) (item : CheckIn) : bool :=
  (toDateString cal (createdAt item) =? today cal)%string.

(** The statement that construction rejects a today-dated check-in whose
    mood is outside the closed set. *)
Definition rejectsMoodOutsideEnum : Prop :=
  forall (cal : Calendar) (checkIns : list CheckIn)
         (chatMessages : option (list ChatMessage)) (item : CheckIn),
    In item checkIns -> datedToday cal item = true -> ~ In (mood item) MOODS ->
    exists msg, callBuildRecommendationContext cal checkIns chatMessages = Js.Throw msg.

(** A host whose clock reads 1 November 2026, with the calendar days of
    the timestamps used below. *)
Definition firstOfNovember : Calendar :=
  mkCalendar "Sun Nov 01 2026"
    (fun createdAt =>
       if (createdAt =? "2026-11-01T08:30:00")%string then "Sun Nov 01 2026"
       else if (createdAt =? "2026-10-31T21:15:00")%string then "Sat Oct 31 2026"
       else "Invalid Date").

(** Box Breathing as it would be without "anxious" among its moods. *)
Definition boxBreathingWithoutAnxious : CopingTool :=
  mkTool "box-breathing" "Box Breathing"
         "4-4-4-4 breathing used by Navy SEALs to manage stress"
         breathing ["frustrated"; "neutral"] high 2
         "Wind" "bg-mint text-mint-foreground" "box-breathing".

(** A summary with a crisis keyword and a stress keyword. *)
Definition panicAndStress : RecommendationContext :=
  mkContext (Some "anxious") (Js.Num 8)
            "I feel panic and I am so stressed" [].

(** Two tools that agree on the four fields scoring reads. *)
Definition sameClinicalFields (t1 t2 : CopingTool) : Prop :=
  category t1 = category t2 /\ supportedMoods t1 = supportedMoods t2 /\
  intensityLevel t1 = intensityLevel t2 /\ durationMinutes t1 = durationMinutes t2.

(** Box Breathing under another identifier, title and look. *)
Definition boxBreathingRenamed : CopingTool :=
  mkTool "square-breathing" "Square Breathing" "Breathe along a square"
         breathing ["anxious"; "frustrated"; "neutral"] high 2
         "Square" "bg-sky text-sky-foreground" "square-breathing".

(** A neutral mood with a crisis keyword in the chat. *)
Definition neutralCrisis : RecommendationContext :=
  mkContext (Some "neutral") (Js.Num 4) "my hands are shaking" [].

(** The categories the crisis rule favours. *)
Definition calming (t : CopingTool) : Prop :=
  category t = breathing \/ category t = grounding.

(** ** The API client (lib/api.ts)

    Header records and request options are plain objects with string
    values; [property] tells a missing property from one that is present
    and holds [undefined]. *)

Module Api.

Definition TOKEN_KEY : string := "sahaay_session_token".

(** [import.meta.env.VITE_API_BASE_URL || ""] *)
Definition API_BASE_URL (VITE_API_BASE_URL : option string) : string :=
  match VITE_API_BASE_URL with
  | Some base => base
  | None => EmptyString
  end.

(** [s.replace(/\/$/, "")]: the pattern matches a slash at the very end. *)
Fixpoint dropTrailingSlash (s : string) : string :=
  match s with
  | EmptyString => EmptyString
  | String c rest =>
      match rest with
      | EmptyString => if Ascii.eqb c "/" then EmptyString else s
      | String _ _ => String c (dropTrailingSlash rest)
      end
  end.

(** Whether [/\/$/] matches: the last character is a slash. *)
Fixpoint endsWithSlash (s : string) : bool :=
  match s with
  | EmptyString => false
  | String c rest =>
      match rest with
      | EmptyString => Ascii.eqb c "/"
      | String _ _ => endsWithSlash rest
      end
  end.

Definition buildUrl (base : string) (path : string) : string :=
  if (base =? EmptyString)%string then path
  else dropTrailingSlash base ++ path.

(** An object with string values, as its list of own properties. *)
Definition object : Type := list (string * string).

Fixpoint getProp (o : object) (key : string) : option string :=
  match o with
  | [] => None
  | (k, v) :: o' => if (k =? key)%string then Some v else getProp o' key
  end.

(** [o[key] = v] *)
Fixpoint setProp (o : object) (key v : string) : object :=
  match o with
  | [] => [(key, v)]
  | (k, v') :: o' =>
      if (k =? key)%string then (k, v) :: o' else (k, v') :: setProp o' key v
  end.

(** [{...target, ...source}] *)
Definition spread (target source : object) : object :=
  fold_left (fun acc kv => setProp acc (fst kv) (snd kv)) source target.

(** What [localStorage.getItem] does: it throws, or returns null or the
    stored string. *)
Inductive storageRead : Type :=
| StorageThrows
| StorageNull
| StorageValue (token : string).

Definition getAuthHeaders (getItem : string -> storageRead) : object :=
  let headers := [("Content-Type", "application/json")] in
  match getItem TOKEN_KEY with
  | StorageValue token =>
      if negb (token =? EmptyString)%string
      then setProp headers "Authorization" ("Bearer " ++ token)
      else headers
  | StorageNull => headers
  | StorageThrows => headers
  end.

Inductive property (A : Type) : Type :=
| Absent
| Present (v : option A).
Arguments Absent {A}.
Arguments Present {A} v.

Record RequestInit : Type := mkInit {
  credentials : property string;
  headers : property object;
  method : property string;
  body : property string
}.

(** A later property of an object literal replaces an earlier one. *)
Definition override {A : Type} (earlier later : property A) : property A :=
  match later with
  | Absent => earlier
  | Present v => Present v
  end.

(** The second argument of [fetch]:
    [{ credentials: "include",
       headers: { ...getAuthHeaders(), ...(options?.headers || {}) },
       ...options }]. *)
Definition requestInit (getItem : string -> storageRead) (options : option RequestInit)
  : RequestInit :=
  let optionHeaders :=
    match options with
    | Some o => match headers o with Present (Some h) => h | _ => [] end
    | None => []
    end in
  let merged := spread (spread [] (getAuthHeaders getItem)) optionHeaders in
  match options with
  | None => mkInit (Present (Some "include")) (Present (Some merged)) Absent Absent
  | Some o =>
      mkInit (override (Present (Some "include")) (credentials o))
             (override (Present (Some merged)) (headers o))
             (override Absent (method o))
             (override Absent (body o))
  end.

(** [response.json()]: the parsed body, or a rejection. *)
Inductive bodyRead (T : Type) : Type :=
| BodyJson (value : T)
| BodyFails (reason : string).
Arguments BodyJson {T} value.
Arguments BodyFails {T} reason.

Record Response (T : Type) : Type := mkResponse {
  ok : bool;
  status : Z;
  json : bodyRead T
}.
Arguments mkResponse {T} ok status json.
Arguments ok {T} r.
Arguments status {T} r.
Arguments json {T} r.

Inductive fetchResult (T : Type) : Type :=
| FetchResolves (response : Response T)
| FetchRejects (reason : string).
Arguments FetchResolves {T} response.
Arguments FetchRejects {T} reason.

(** What the page's host supplies. *)
Record Host (T : Type) : Type := mkHost {
  VITE_API_BASE_URL : option string;
  getItem : string -> storageRead;
  fetch : string -> RequestInit -> fetchResult T
}.
Arguments mkHost {T} VITE_API_BASE_URL getItem fetch.
Arguments VITE_API_BASE_URL {T} h.
Arguments getItem {T} h.
Arguments fetch {T} h.

(** How the promise of [apiFetch] settles. *)
Inductive outcome (T : Type) : Type :=
| Resolved (value : T)
| RejectedApiError (message : string) (status : Z) (details : option T)
| Rejected (reason : string).
Arguments Resolved {T} value.
Arguments RejectedApiError {T} message status details.
Arguments Rejected {T} reason.

Definition apiFetch {T : Type} (host : Host T) (path : string)
  (options : option RequestInit) : outcome T :=
  match fetch host (buildUrl (API_BASE_URL (VITE_API_BASE_URL host)) path)
              (requestInit (getItem host) options) with
  | FetchRejects reason => Rejected reason
  | FetchResolves response =>
      if negb (ok response) then
        let details :=
          match json response with
          | BodyJson value => Some value
          | BodyFails _ => None
          end in
        RejectedApiError "API request failed" (status response) details
      else
        match json response with
        | BodyJson value => Resolved value
        | BodyFails reason => Rejected reason
        end
  end.

End Api.

(** ** The chat history page (ChatHistory.tsx) *)

Module History.

Record DailySummary : Type := mkSummary {
  id : string;
  dayKey : string;
  summary : string;
  topEmotions : list string;
  messageCount : Z
}.

(** The body of [/api/chat/history]; the [history] field may be missing. *)
Record HistoryResponse : Type := mkHistoryResponse {
  history : option (list DailySummary)
}.

(** The four [useState] cells of the component. *)
Record PageState : Type := mkPage {
  historyState : list DailySummary;
  loading : bool;
  refreshing : bool;
  search : string
}.

Definition initialState : PageState := mkPage [] true false EmptyString.

Definition setHistory (h : list DailySummary) (st : PageState) : PageState :=
  mkPage h (loading st) (refreshing st) (search st).
Definition setLoading (b : bool) (st : PageState) : PageState :=
  mkPage (historyState st) b (refreshing st) (search st).
Definition setRefreshing (b : bool) (st : PageState) : PageState :=
  mkPage (historyState st) (loading st) b (search st).
Definition setSearch (s : string) (st : PageState) : PageState :=
  mkPage (historyState st) (loading st) (refreshing st) s.

(** [fetchHistory(isRefresh)]: the state once the request has settled and
    the [finally] block has run. *)
Definition fetchHistory (host : Api.Host HistoryResponse) (isRefresh : bool)
  (st : PageState) : PageState :=
  let st := if isRefresh then setRefreshing true st else setLoading true st in
  let st :=
    match Api.apiFetch host "/api/chat/history" None with
    | Api.Resolved res =>
        setHistory (match history res with Some h => h | None => [] end) st
    | Api.RejectedApiError _ _ _ => st
    | Api.Rejected _ => st
    end in
  let st := setLoading false st in
  setRefreshing false st.

(** The predicate given to [history.filter]. *)
Definition matchesSearch (search : string) (item : DailySummary) : bool :=
  Js.includes (Js.toLowerCase (summary item)) (Js.toLowerCase search)
  || Js.includes (dayKey item) search.

Definition filteredHistory (st : PageState) : list DailySummary :=
  filter (matchesSearch (search st)) (historyState st).

(** Which of the three branches of the page body is rendered. *)
Inductive body : Type :=
| Skeleton
| Cards (items : list DailySummary)
| NoHistory (message : string) (startButton : bool).

Definition render (st : PageState) : body :=
  if loading st then Skeleton
  else if (0 <? List.length (filteredHistory st))%nat then Cards (filteredHistory st)
  else
    let searching := negb (search st =? EmptyString)%string in
    NoHistory
      (if searching
       then "We couldn't find any conversations matching your search."
       else "Start chatting with Sahaay to see your history here!")
      (negb searching).

End History.

(** ** Letter case, stated without the lower-casing function *)

(** A character of the ASCII range, and a text of such characters. *)
Definition isAsciiChar (c : ascii) : bool := (N_of_ascii c <? 128)%N.

Fixpoint isAscii (s : string) : bool :=
  match s with
  | EmptyString => true
  | String c s' => isAsciiChar c && isAscii s'
  end.

(** One of the letters A-Z. *)
Definition isUpper (c : ascii) : bool :=
  ((65 <=? N_of_ascii c) && (N_of_ascii c <=? 90))%N.

Fixpoint hasNoUpper (s : string) : bool :=
  match s with
  | EmptyString => true
  | String c s' => negb (isUpper c) && hasNoUpper s'
  end.

(** The same character, or the same letter in its two cases (the capital
    is 32 below the small letter). *)
Definition sameLetter (a b : ascii) : bool :=
  Ascii.eqb a b
  || (isUpper a && (N_of_ascii b =? N_of_ascii a + 32)%N)
  || (isUpper b && (N_of_ascii a =? N_of_ascii b + 32)%N).

(** Two texts that differ at most in the case of their letters A-Z. *)
Fixpoint equalIgnoringCase (s1 s2 : string) : bool :=
  match s1, s2 with
  | EmptyString, EmptyString => true
  | String a s1', String b s2' => sameLetter a b && equalIgnoringCase s1' s2'
  | _, _ => false
  end.

(** What the engine needs of the host's [String.prototype.toLowerCase]: a
    stretch of ASCII characters is lowered where it stands, as the fold
    lowers it, whatever surrounds it, and a text of ASCII characters is
    lowered as the fold lowers it. *)
Definition hostLowerCase (toLowerCase : string -> string) : Prop :=
  (forall pre mid post,
      isAscii mid = true ->
      exists before after,
        toLowerCase (pre ++ mid ++ post) = before ++ Js.toLowerCase mid ++ after) /\
  (forall s, isAscii s = true -> toLowerCase s = Js.toLowerCase s).

(** [analyzeChatSentiment] with the host's lower-casing function as a
    parameter, for statements about every text. *)
Definition analyzeChatSentimentWith (toLowerCase : string -> string)
  (chatText : string) : Sentiment :=
  let lower := toLowerCase chatText in
  let keywords := [] in
  let (hasCrisis, keywords) := Js.some (recordMatch lower) CRISIS_KEYWORDS keywords in
  let (hasLowMood, keywords) := Js.some (recordMatch lower) LOW_MOOD_KEYWORDS keywords in
  let (hasStress, keywords) := Js.some (recordMatch lower) STRESS_KEYWORDS keywords in
  mkSentiment keywords hasCrisis hasLowMood hasStress.

(** The terms of the three keyword lists. *)
Definition ALL_KEYWORDS : list string :=
  (CRISIS_KEYWORDS ++ LOW_MOOD_KEYWORDS ++ STRESS_KEYWORDS)%list.

(** * Properties *)

(** ** The engine on the catalog *)

Example ranking_scenarioA :
  scores (getRecommendedCopingTools EVIDENCE_BASED_COPING_TOOLS scenarioA)
  = [("box-breathing", 90); ("54321-grounding", 90);
     ("478-breathing", 80); ("body-scan", 80);
     ("progressive-muscle-relaxation", 80); ("simple-breathing", 70);
     ("cognitive-reframing", 50); ("quick-exercises", 50);
     ("thought-journaling", 40); ("affirmations", 40);
     ("self-compassion", 40); ("gratitude-reflection", 20)].
Proof. vm_compute. reflexivity. Qed.

Example ranking_scenarioB :
  scores (getRecommendedCopingTools EVIDENCE_BASED_COPING_TOOLS scenarioB)
  = [("cognitive-reframing", 90); ("thought-journaling", 85);
     ("affirmations", 85); ("gratitude-reflection", 85);
     ("self-compassion", 85); ("478-breathing", 60);
     ("54321-grounding", 40); ("body-scan", 40);
     ("progressive-muscle-relaxation", 40); ("quick-exercises", 40);
     ("simple-breathing", 35); ("box-breathing", 20)].
Proof. vm_compute. reflexivity. Qed.

Example ranking_scenarioC :
  scores (getRecommendedCopingTools EVIDENCE_BASED_COPING_TOOLS scenarioC)
  = [("478-breathing", 30); ("simple-breathing", 25); ("body-scan", 25);
     ("cognitive-reframing", 25); ("affirmations", 25);
     ("gratitude-reflection", 25); ("quick-exercises", 25);
     ("progressive-muscle-relaxation", 20); ("self-compassion", 20);
     ("thought-journaling", 15); ("box-breathing", 10);
     ("54321-grounding", 10)].
Proof. vm_compute. reflexivity. Qed.

Example explanation_scenarioA :
  generateExplanation boxBreathing scenarioA
  = "This technique is suggested because you felt anxious today and you mentioned feeling overwhelmed and this offers quick relief.".
Proof. vm_compute. reflexivity. Qed.

Example explanation_fallback :
  generateExplanation bodyScan scenarioC
  = "This grounding technique is gentle and effective.".
Proof. vm_compute. reflexivity. Qed.

Example sentiment_mixed_case :
  analyzeChatSentiment "So TIRED and Sad; Heart Racing, DIZZY... too much Pressure"
  = mkSentiment ["heart racing"; "tired"; "too much"] true true true.
Proof. vm_compute. reflexivity. Qed.

Example context_first_today_and_five_messages :
  buildRecommendationContext firstOfNovember
    [mkCheckIn "happy" "2026-10-31T21:15:00";
     mkCheckIn "sad" "2026-11-01T08:30:00";
     mkCheckIn "calm" "2026-11-01T08:30:00"]
    (Some [mkMessage "I feel ALONE"; mkMessage "two"; mkMessage "three";
           mkMessage "four"; mkMessage "five"; mkMessage "panic"])
  = mkContext (Some "sad") (Js.Num 6) "I feel ALONE two three four five" ["alone"].
Proof. vm_compute. reflexivity. Qed.

(** ** Scoring *)

Section ScoreSteps.

Variables (t : CopingTool) (context : RecommendationContext).

(** The four blocks of [scoreTool], each as the update it makes to the
    running [score]. *)
Let moodStep (score : Z) : Z :=
  if supportsCurrentMood t context then score + 40
  else if truthy (currentMood context) then score + 20
  else score.

Let intensityStep (score : Z) : Z :=
  if Js.geb (moodIntensity context) 7 then
    let score := if levelEqb (intensityLevel t) high then score + 20 else score in
    if levelEqb (intensityLevel t) medium then score + 10 else score
  else if Js.geb (moodIntensity context) 4 then
    let score := if levelEqb (intensityLevel t) medium then score + 20 else score in
    if levelEqb (intensityLevel t) low then score + 15 else score
  else
    let score := if levelEqb (intensityLevel t) low then score + 20 else score in
    if levelEqb (intensityLevel t) medium then score + 10 else score.

Let durationStep (score : Z) : Z :=
  if unsureOrNeutral context then
    if durationMinutes t <=? 3 then score + 10
    else if durationMinutes t <=? 5 then score + 5
    else score
  else score.

Let sentimentStep (score : Z) : Z :=
  let sentiment := analyzeChatSentiment (recentChatSummary context) in
  if hasCrisis sentiment then
    if inCategory t breathing grounding then score + 30 else score
  else if hasLowMood sentiment then
    if inCategory t reflection cognitive then score + 30 else score
  else if hasStress sentiment then
    if inCategory t movement grounding then score + 30 else score
  else score.

Lemma scoreTool_steps :
  scoreTool t context
  = Z.min (durationStep (intensityStep (sentimentStep (moodStep 0)))) 100.
Proof. reflexivity. Qed.

Lemma moodStep_adds : forall score,
  moodStep score = score + moodCompatibility t context.
Proof.
  intro score. unfold moodStep, supportsCurrentMood, moodCompatibility,
    Js.arrayIncludes, truthy.
  destruct (currentMood context) as [m|]; [|lia].
  destruct (m =? EmptyString)%string; simpl; [lia|].
  destruct (existsb (String.eqb m) (supportedMoods t)); lia.
Qed.

Lemma sentimentStep_adds : forall score,
  sentimentStep score = score + sentimentAlignment t context.
Proof.
  intro score. unfold sentimentStep, sentimentAlignment, inCategory.
  cbv zeta.
  destruct (analyzeChatSentiment (recentChatSummary context)) as [ks c l s].
  cbn [hasCrisis hasLowMood hasStress].
  destruct c, l, s, (category t); cbn; lia.
Qed.

Lemma intensityStep_adds : forall score,
  intensityStep score = score + intensityMatching t context.
Proof.
  intro score. unfold intensityStep, intensityMatching.
  destruct (Js.geb (moodIntensity context) 7),
    (Js.geb (moodIntensity context) 4), (intensityLevel t); cbn; lia.
Qed.

Lemma durationStep_adds : forall score,
  durationStep score = score + durationPreference t context.
Proof.
  intro score. unfold durationStep, durationPreference, unsureOrNeutral, truthy.
  destruct (currentMood context) as [m|]; cbn.
  - destruct (m =? EmptyString)%string, (m =? "neutral")%string,
      (durationMinutes t <=? 3), (durationMinutes t <=? 5); cbn; lia.
  - destruct (durationMinutes t <=? 3), (durationMinutes t <=? 5); lia.
Qed.

(** The running total before the clamp is the sum of the components. *)
Lemma scoreTool_sum :
  scoreTool t context
  = Z.min (moodCompatibility t context + sentimentAlignment t context
           + intensityMatching t context + durationPreference t context) 100.
Proof.
  rewrite scoreTool_steps, durationStep_adds, intensityStep_adds,
    sentimentStep_adds, moodStep_adds.
  f_equal; try lia.
Qed.

Lemma moodCompatibility_bounds : 0 <= moodCompatibility t context <= 40.
Proof.
  unfold moodCompatibility.
  destruct (currentMood context) as [m|]; [|lia].
  destruct (m =? EmptyString)%string; [lia|].
  destruct (existsb (String.eqb m) (supportedMoods t)); lia.
Qed.

Lemma sentimentAlignment_bounds : 0 <= sentimentAlignment t context <= 30.
Proof.
  unfold sentimentAlignment. cbv zeta.
  destruct (analyzeChatSentiment (recentChatSummary context)) as [ks c l s].
  cbn [hasCrisis hasLowMood hasStress].
  destruct c, l, s, (category t); lia.
Qed.

Lemma intensityMatching_bounds : 0 <= intensityMatching t context <= 20.
Proof.
  unfold intensityMatching.
  destruct (Js.geb (moodIntensity context) 7),
    (Js.geb (moodIntensity context) 4), (intensityLevel t); lia.
Qed.

Lemma durationPreference_bounds : 0 <= durationPreference t context <= 10.
Proof.
  unfold durationPreference.
  destruct (currentMood context) as [m|];
    [destruct ((m =? EmptyString) || (m =? "neutral"))%string|];
    destruct (durationMinutes t <=? 3), (durationMinutes t <=? 5); lia.
Qed.

End ScoreSteps.

(** C1. For every tool and every context the score is an integer between 0
    and 100 inclusive, and it is the sum of the four components, none of
    which is negative, clamped above at 100. *)
Theorem scoreTool_clamped_component_sum :
  forall (t : CopingTool) (context : RecommendationContext),
    let a := moodCompatibility t context in
    let b := sentimentAlignment t context in
    let c := intensityMatching t context in
    let d := durationPreference t context in
    0 <= a /\ 0 <= b /\ 0 <= c /\ 0 <= d /\
    scoreTool t context = Z.min (a + b + c + d) 100 /\
    0 <= scoreTool t context <= 100.
Proof.
  intros t context a b c d.
  pose proof (moodCompatibility_bounds t context) as Ha.
  pose proof (sentimentAlignment_bounds t context) as Hb.
  pose proof (intensityMatching_bounds t context) as Hc.
  pose proof (durationPreference_bounds t context) as Hd.
  pose proof (scoreTool_sum t context) as Hs.
  fold a b c d in Ha, Hb, Hc, Hd, Hs.
  repeat split; try lia.
Qed.

(** The last three components read the category, the intensity level and
    the duration of a tool, never its supported moods. *)
Lemma components_ignore_supportedMoods :
  forall (t1 t2 : CopingTool) (context : RecommendationContext),
    sameExceptMoods t1 t2 ->
    sentimentAlignment t1 context = sentimentAlignment t2 context /\
    intensityMatching t1 context = intensityMatching t2 context /\
    durationPreference t1 context = durationPreference t2 context.
Proof.
  intros t1 t2 context (_ & _ & _ & Hcat & Hlvl & Hdur & _).
  unfold sentimentAlignment, intensityMatching, durationPreference.
  rewrite Hcat, Hlvl, Hdur. auto.
Qed.

Lemma existsb_eqb_In : forall (m : string) (l : list string),
  existsb (String.eqb m) l = true <-> In m l.
Proof.
  intros m l. rewrite existsb_exists. split.
  - intros (x & Hin & Heq). apply String.eqb_eq in Heq. now subst.
  - intro Hin. exists m. split; [assumption | apply String.eqb_refl].
Qed.

Lemma moodCompatibility_supported :
  forall (t : CopingTool) (context : RecommendationContext) (m : Mood),
    currentMood context = Some m -> m <> EmptyString -> In m (supportedMoods t) ->
    moodCompatibility t context = 40.
Proof.
  intros t context m Hm Hne Hin. unfold moodCompatibility. rewrite Hm.
  apply String.eqb_neq in Hne. rewrite Hne.
  apply existsb_eqb_In in Hin. now rewrite Hin.
Qed.

Lemma moodCompatibility_unsupported :
  forall (t : CopingTool) (context : RecommendationContext) (m : Mood),
    currentMood context = Some m -> m <> EmptyString -> ~ In m (supportedMoods t) ->
    moodCompatibility t context = 20.
Proof.
  intros t context m Hm Hne Hin. unfold moodCompatibility. rewrite Hm.
  apply String.eqb_neq in Hne. rewrite Hne.
  destruct (existsb (String.eqb m) (supportedMoods t)) eqn:E; [|reflexivity].
  apply existsb_eqb_In in E. contradiction.
Qed.

(** C4. With a current mood present, of two tools that differ only in
    their supported moods, the one that supports the current mood scores
    exactly 20 more than the one that does not: the clamp at 100 never
    reduces the difference. *)
Theorem supporting_current_mood_adds_20 :
  forall (t1 t2 : CopingTool) (context : RecommendationContext) (m : Mood),
    currentMood context = Some m -> m <> EmptyString ->
    sameExceptMoods t1 t2 ->
    In m (supportedMoods t1) ->
    ~ In m (supportedMoods t2) ->
    scoreTool t1 context = scoreTool t2 context + 20.
Proof.
  intros t1 t2 context m Hm Hne Hsame Hin Hout.
  rewrite !scoreTool_sum.
  destruct (components_ignore_supportedMoods t1 t2 context Hsame) as (Hb & Hc & Hd).
  rewrite Hb, Hc, Hd.
  rewrite (moodCompatibility_supported t1 context m Hm Hne Hin).
  rewrite (moodCompatibility_unsupported t2 context m Hm Hne Hout).
  pose proof (sentimentAlignment_bounds t2 context).
  pose proof (intensityMatching_bounds t2 context).
  pose proof (durationPreference_bounds t2 context).
  lia.
Qed.

Lemma supporting_current_mood_adds_20_witness :
  scoreTool boxBreathing scenarioA
  = scoreTool boxBreathingWithoutAnxious scenarioA + 20.
Proof.
  apply (supporting_current_mood_adds_20
           boxBreathing boxBreathingWithoutAnxious scenarioA "anxious").
  - reflexivity.
  - discriminate.
  - repeat split.
  - simpl. left. reflexivity.
  - simpl. intros [H | [H | []]]; discriminate H.
Defined.

Lemma scenarioA_sentiment :
  analyzeChatSentiment "I'm having a panic attack, can't breathe"
  = mkSentiment ["panic"] true false false.
Proof. vm_compute. reflexivity. Qed.

(** C9. In scenario A (mood anxious, intensity 8, a summary that mentions
    panic) every breathing tool that supports anxious and has high
    intensity scores exactly 90: 40 for the mood, 30 for the crisis, 20 for
    the intensity and 0 for the duration. *)
Theorem scenarioA_breathing_high_scores_90 :
  forall (t : CopingTool) (chatKeywords : list string),
    category t = breathing ->
    In "anxious" (supportedMoods t) ->
    intensityLevel t = high ->
    let context :=
      mkContext (Some "anxious") (Js.Num 8)
                "I'm having a panic attack, can't breathe" chatKeywords in
    hasCrisis (analyzeChatSentiment (recentChatSummary context)) = true /\
    moodCompatibility t context = 40 /\
    sentimentAlignment t context = 30 /\
    intensityMatching t context = 20 /\
    durationPreference t context = 0 /\
    scoreTool t context = 90.
Proof.
  intros t kws Hcat Hin Hlvl context.
  assert (Ha : moodCompatibility t context = 40).
  { apply (moodCompatibility_supported t context "anxious");
      [reflexivity | discriminate | assumption]. }
  assert (Hb : sentimentAlignment t context = 30).
  { unfold sentimentAlignment, context. cbn [recentChatSummary].
    rewrite scenarioA_sentiment, Hcat. reflexivity. }
  assert (Hc : intensityMatching t context = 20).
  { unfold intensityMatching, context. cbn [moodIntensity]. rewrite Hlvl.
    reflexivity. }
  assert (Hd : durationPreference t context = 0) by reflexivity.
  refine (conj _ (conj Ha (conj Hb (conj Hc (conj Hd _))))).
  - unfold context. cbn [recentChatSummary].
    rewrite scenarioA_sentiment. reflexivity.
  - rewrite scoreTool_sum, Ha, Hb, Hc, Hd. reflexivity.
Qed.

Lemma scenarioA_breathing_high_scores_90_witness :
  scoreTool boxBreathing scenarioA = 90.
Proof.
  apply (scenarioA_breathing_high_scores_90 boxBreathing []).
  - reflexivity.
  - simpl. left. reflexivity.
  - reflexivity.
Defined.

(** C10. Scoring and explanation never read [chatKeywords]: two contexts
    that agree on the mood, the intensity and the chat summary give every
    tool the same score and the same explanation. *)
Theorem chatKeywords_never_consulted :
  forall (t : CopingTool) (c1 c2 : RecommendationContext),
    currentMood c1 = currentMood c2 ->
    moodIntensity c1 = moodIntensity c2 ->
    recentChatSummary c1 = recentChatSummary c2 ->
    scoreTool t c1 = scoreTool t c2 /\
    generateExplanation t c1 = generateExplanation t c2.
Proof.
  intros t [m1 i1 s1 k1] [m2 i2 s2 k2]. cbn [currentMood moodIntensity recentChatSummary].
  intros -> -> ->. split; reflexivity.
Qed.

Lemma chatKeywords_never_consulted_witness :
  scoreTool boxBreathing scenarioA
  = scoreTool boxBreathing
      (mkContext (Some "anxious") (Js.Num 8)
                 "I'm having a panic attack, can't breathe" ["dark"; "sore"]) /\
  generateExplanation boxBreathing scenarioA
  = generateExplanation boxBreathing
      (mkContext (Some "anxious") (Js.Num 8)
                 "I'm having a panic attack, can't breathe" ["dark"; "sore"]).
Proof.
  apply (chatKeywords_never_consulted boxBreathing); reflexivity.
Defined.

(** ** Substring search and case folding *)

Lemma startsWith_spec : forall (kw s : string),
  Js.startsWith s kw = true <-> exists post, s = kw ++ post.
Proof.
  induction kw as [|a kw IH]; intros s; simpl.
  - split; [intros _; now exists s | reflexivity].
  - destruct s as [|b s].
    + split; [discriminate | intros (post & H); discriminate H].
    + rewrite andb_true_iff, Ascii.eqb_eq, IH. split.
      * intros (-> & post & ->). now exists post.
      * intros (post & H). injection H as -> ->. split; [reflexivity | now exists post].
Qed.

Lemma includes_spec : forall (s kw : string),
  Js.includes s kw = true <-> exists pre post, s = pre ++ kw ++ post.
Proof.
  induction s as [|c s IH]; intros kw; simpl; rewrite orb_true_iff, startsWith_spec.
  - split.
    + intros [(post & H) | H]; [|discriminate H]. now exists EmptyString, post.
    + intros (pre & post & H). left. destruct pre; [|discriminate H].
      now exists post.
  - rewrite IH. split.
    + intros [(post & H) | (pre & post & H)].
      * now exists EmptyString, post.
      * exists (String c pre), post. simpl. now rewrite H.
    + intros (pre & post & H). destruct pre as [|c' pre]; simpl in H.
      * left. now exists post.
      * right. injection H as _ H. now exists pre, post.
Qed.

(** The fold works character by character, so it commutes with
    concatenation; the built-in does so on text of ASCII characters. *)
Lemma toLowerCase_app : forall (a b : string),
  Js.toLowerCase (a ++ b) = Js.toLowerCase a ++ Js.toLowerCase b.
Proof.
  induction a as [|c a IH]; intro b; simpl; [reflexivity | now rewrite IH].
Qed.

Lemma toLowerCase_split : forall (a b s : string),
  Js.toLowerCase s = a ++ b ->
  exists a' b', s = a' ++ b' /\ Js.toLowerCase a' = a /\ Js.toLowerCase b' = b.
Proof.
  induction a as [|c a IH]; intros b s H; simpl in H.
  - now exists EmptyString, s.
  - destruct s as [|d s]; [discriminate H|]. simpl in H. injection H as Hc H.
    destruct (IH b s H) as (a' & b' & -> & Ha & Hb).
    exists (String d a'), b'. simpl. now rewrite Hc, Ha.
Qed.

(** Matching a keyword against the lowered text is matching it against
    some stretch of the text up to the case of its letters. *)
Lemma includes_toLowerCase : forall (chatText kw : string),
  Js.includes (Js.toLowerCase chatText) kw = true <->
  exists pre mid post,
    chatText = pre ++ mid ++ post /\ Js.toLowerCase mid = kw.
Proof.
  intros chatText kw. rewrite includes_spec. split.
  - intros (p & q & H).
    destruct (toLowerCase_split _ _ _ H) as (pre & rest & -> & _ & Hrest).
    destruct (toLowerCase_split _ _ _ Hrest) as (mid & post & -> & Hmid & _).
    now exists pre, mid, post.
  - intros (pre & mid & post & -> & <-).
    exists (Js.toLowerCase pre), (Js.toLowerCase post).
    now rewrite !toLowerCase_app.
Qed.

(** ** The sentiment analyzer *)

Lemma some_recordMatch : forall (lower : string) (kws acc : list string),
  Js.some (recordMatch lower) kws acc
  = (existsb (Js.includes lower) kws, (acc ++ firstMatch lower kws)%list).
Proof.
  intros lower kws. unfold firstMatch.
  induction kws as [|kw kws IH]; intro acc; simpl.
  - now rewrite app_nil_r.
  - unfold recordMatch at 1. destruct (Js.includes lower kw); [reflexivity|].
    simpl. apply IH.
Qed.

Lemma analyzeChatSentiment_scans : forall (chatText : string),
  let lower := Js.toLowerCase chatText in
  analyzeChatSentiment chatText
  = mkSentiment
      (firstMatch lower CRISIS_KEYWORDS ++ firstMatch lower LOW_MOOD_KEYWORDS
       ++ firstMatch lower STRESS_KEYWORDS)%list
      (existsb (Js.includes lower) CRISIS_KEYWORDS)
      (existsb (Js.includes lower) LOW_MOOD_KEYWORDS)
      (existsb (Js.includes lower) STRESS_KEYWORDS).
Proof.
  intros chatText lower. unfold analyzeChatSentiment. fold lower.
  cbv zeta. rewrite (some_recordMatch lower CRISIS_KEYWORDS).
  rewrite (some_recordMatch lower LOW_MOOD_KEYWORDS).
  rewrite (some_recordMatch lower STRESS_KEYWORDS).
  now rewrite app_nil_l, app_assoc.
Qed.

Lemma scanOutcome_scan : forall (lower : string) (kws : list string),
  scanOutcome lower kws (existsb (Js.includes lower) kws) (firstMatch lower kws).
Proof.
  intros lower kws. unfold firstMatch.
  induction kws as [|kw kws IH]; simpl.
  - apply scanMiss. intros kw [].
  - destruct (Js.includes lower kw) eqn:E; simpl.
    + apply (scanHit lower (kw :: kws) [] kw kws); auto. intros k [].
    + inversion IH as [Hmiss Hb Hl | earlier k later Hsplit Hearlier Hk Hb Hl].
      * apply scanMiss. intros k [<- | Hin]; auto.
      * rewrite Hsplit at 1.
        apply (scanHit lower (kw :: (earlier ++ k :: later)) (kw :: earlier) k later);
          auto.
        intros k' [<- | Hin]; auto.
Qed.

Lemma firstMatch_length : forall (lower : string) (kws : list string),
  (List.length (firstMatch lower kws) <= 1)%nat.
Proof.
  intros lower kws. unfold firstMatch.
  destruct (find (Js.includes lower) kws); simpl; lia.
Qed.

(** ** Letter case *)

Lemma N_of_ascii_inj : forall (a b : ascii), N_of_ascii a = N_of_ascii b -> a = b.
Proof.
  intros a b H. rewrite <- (ascii_N_embedding a), <- (ascii_N_embedding b).
  now rewrite H.
Qed.

Lemma isUpper_spec : forall (c : ascii),
  isUpper c = true <-> (65 <= N_of_ascii c <= 90)%N.
Proof.
  intro c. unfold isUpper. now rewrite andb_true_iff, !N.leb_le.
Qed.

Lemma N_of_lowerChar : forall (c : ascii),
  N_of_ascii (Js.lowerChar c)
  = if isUpper c then (N_of_ascii c + 32)%N else N_of_ascii c.
Proof.
  intro c. unfold Js.lowerChar. fold (isUpper c).
  destruct (isUpper c) eqn:E; [|reflexivity].
  apply isUpper_spec in E. apply N_ascii_embedding. lia.
Qed.

Lemma sameLetter_spec : forall (a b : ascii),
  sameLetter a b = true <->
  (N_of_ascii a = N_of_ascii b \/
   (isUpper a = true /\ N_of_ascii b = N_of_ascii a + 32) \/
   (isUpper b = true /\ N_of_ascii a = N_of_ascii b + 32))%N.
Proof.
  intros a b. unfold sameLetter.
  rewrite !orb_true_iff, !andb_true_iff, !N.eqb_eq, Ascii.eqb_eq.
  split.
  - intros [[-> | H] | H]; auto.
  - intros [H | [H | H]]; auto. left. left. now apply N_of_ascii_inj.
Qed.

Lemma isUpper_false : forall (c : ascii),
  isUpper c = false -> (N_of_ascii c < 65 \/ 90 < N_of_ascii c)%N.
Proof.
  intros c H. unfold isUpper in H. apply andb_false_iff in H.
  rewrite !N.leb_gt in H. tauto.
Qed.

(** [sameLetter] is equality after the fold. *)
Lemma sameLetter_lowerChar : forall (a b : ascii),
  sameLetter a b = true <-> Js.lowerChar a = Js.lowerChar b.
Proof.
  intros a b. rewrite sameLetter_spec.
  assert (Hinj : Js.lowerChar a = Js.lowerChar b <->
                 N_of_ascii (Js.lowerChar a) = N_of_ascii (Js.lowerChar b)).
  { split; [now intros -> | apply N_of_ascii_inj]. }
  rewrite Hinj, !N_of_lowerChar.
  destruct (isUpper a) eqn:Ua;
    [apply isUpper_spec in Ua | apply isUpper_false in Ua];
    (destruct (isUpper b) eqn:Ub;
     [apply isUpper_spec in Ub | apply isUpper_false in Ub]);
    (split; intro H;
     [destruct H as [H | [[H1 H] | [H1 H]]]; try discriminate H1; lia
     | first [ left; lia
             | right; left; split; [reflexivity | lia]
             | right; right; split; [reflexivity | lia] ]]).
Qed.

Lemma equalIgnoringCase_toLowerCase : forall (s1 s2 : string),
  equalIgnoringCase s1 s2 = true <-> Js.toLowerCase s1 = Js.toLowerCase s2.
Proof.
  induction s1 as [|a s1 IH]; intros [|b s2]; cbn; try (split; discriminate).
  - split; reflexivity.
  - rewrite andb_true_iff, sameLetter_lowerChar, IH. split.
    + intros [-> ->]. reflexivity.
    + intro H. injection H as H1 H2. auto.
Qed.

Lemma toLowerCase_hasNoUpper : forall (s : string),
  hasNoUpper s = true -> Js.toLowerCase s = s.
Proof.
  induction s as [|c s IH]; cbn; [reflexivity|].
  rewrite andb_true_iff, negb_true_iff. intros [Hc Hs].
  rewrite (IH Hs). f_equal. unfold Js.lowerChar. fold (isUpper c). now rewrite Hc.
Qed.

Lemma sameLetter_isAsciiChar : forall (a b : ascii),
  sameLetter a b = true -> isAsciiChar b = true -> isAsciiChar a = true.
Proof.
  intros a b H Hb. apply sameLetter_spec in H. unfold isAsciiChar in *.
  apply N.ltb_lt in Hb. apply N.ltb_lt.
  destruct H as [H | [[H1 H] | [H1 H]]];
    try (apply isUpper_spec in H1); lia.
Qed.

Lemma equalIgnoringCase_isAscii : forall (s1 s2 : string),
  equalIgnoringCase s1 s2 = true -> isAscii s2 = true -> isAscii s1 = true.
Proof.
  induction s1 as [|a s1 IH]; intros [|b s2]; cbn; try discriminate; auto.
  rewrite !andb_true_iff. intros [Hc Hs] [Hb Hs2]. split.
  - now apply (sameLetter_isAsciiChar a b).
  - now apply (IH s2).
Qed.

(** The fold is a lower-casing function of the kind the host supplies. *)
Lemma toLowerCase_hostLowerCase : hostLowerCase Js.toLowerCase.
Proof.
  split.
  - intros pre mid post _. exists (Js.toLowerCase pre), (Js.toLowerCase post).
    now rewrite !toLowerCase_app.
  - reflexivity.
Qed.

Lemma keywords_are_lower_ascii : forall (kw : string),
  In kw ALL_KEYWORDS -> isAscii kw = true /\ hasNoUpper kw = true.
Proof.
  assert (H : forallb (fun kw => isAscii kw && hasNoUpper kw) ALL_KEYWORDS = true)
    by (vm_compute; reflexivity).
  rewrite forallb_forall in H. intros kw Hin.
  apply andb_true_iff. now apply H.
Qed.

Lemma analyzeChatSentimentWith_scans :
  forall (toLowerCase : string -> string) (chatText : string),
    let lower := toLowerCase chatText in
    analyzeChatSentimentWith toLowerCase chatText
    = mkSentiment
        (firstMatch lower CRISIS_KEYWORDS ++ firstMatch lower LOW_MOOD_KEYWORDS
         ++ firstMatch lower STRESS_KEYWORDS)%list
        (existsb (Js.includes lower) CRISIS_KEYWORDS)
        (existsb (Js.includes lower) LOW_MOOD_KEYWORDS)
        (existsb (Js.includes lower) STRESS_KEYWORDS).
Proof.
  intros toLowerCase chatText lower. unfold analyzeChatSentimentWith. fold lower.
  cbv zeta. rewrite (some_recordMatch lower CRISIS_KEYWORDS).
  rewrite (some_recordMatch lower LOW_MOOD_KEYWORDS).
  rewrite (some_recordMatch lower STRESS_KEYWORDS).
  now rewrite app_nil_l, app_assoc.
Qed.

(** The engine's analyzer is the parametrised one at the fold. *)
Lemma analyzeChatSentiment_With : forall (chatText : string),
  analyzeChatSentiment chatText = analyzeChatSentimentWith Js.toLowerCase chatText.
Proof. reflexivity. Qed.

(** C7. The analyzer scans each keyword list on its own, in declared
    order, and stops at the first match: each category records at most one
    keyword, the earliest-declared one that the lowered text includes, so
    at most three are returned; this holds for every text, however the
    host lowers it.  The matching ignores letter case: with the host's
    lower-casing, a keyword is matched wherever a stretch of the text
    equals it up to the case of its letters, and on a text of ASCII
    characters it is matched nowhere else. *)
Theorem analyzeChatSentiment_first_match_per_category :
  forall (toLowerCase : string -> string) (chatText : string),
    hostLowerCase toLowerCase ->
    let lower := toLowerCase chatText in
    let s := analyzeChatSentimentWith toLowerCase chatText in
    (exists crisis lowMood stress,
        keywords s = (crisis ++ lowMood ++ stress)%list /\
        scanOutcome lower CRISIS_KEYWORDS (hasCrisis s) crisis /\
        scanOutcome lower LOW_MOOD_KEYWORDS (hasLowMood s) lowMood /\
        scanOutcome lower STRESS_KEYWORDS (hasStress s) stress /\
        (List.length crisis <= 1)%nat /\ (List.length lowMood <= 1)%nat /\
        (List.length stress <= 1)%nat) /\
    (List.length (keywords s) <= 3)%nat /\
    (forall kw pre mid post,
        In kw ALL_KEYWORDS ->
        chatText = pre ++ mid ++ post ->
        equalIgnoringCase mid kw = true ->
        Js.includes lower kw = true) /\
    (isAscii chatText = true ->
     forall kw,
       In kw ALL_KEYWORDS ->
       Js.includes lower kw = true ->
       exists pre mid post,
         chatText = pre ++ mid ++ post /\ equalIgnoringCase mid kw = true).
Proof.
  intros toLowerCase chatText [Hplace Hascii] lower s.
  split; [|split; [|split]].
  - exists (firstMatch lower CRISIS_KEYWORDS), (firstMatch lower LOW_MOOD_KEYWORDS),
      (firstMatch lower STRESS_KEYWORDS).
    unfold s. rewrite analyzeChatSentimentWith_scans. fold lower.
    cbn [keywords hasCrisis hasLowMood hasStress].
    repeat split; auto using scanOutcome_scan, firstMatch_length.
  - unfold s. rewrite analyzeChatSentimentWith_scans. fold lower. cbn [keywords].
    rewrite !length_app.
    pose proof (firstMatch_length lower CRISIS_KEYWORDS).
    pose proof (firstMatch_length lower LOW_MOOD_KEYWORDS).
    pose proof (firstMatch_length lower STRESS_KEYWORDS).
    lia.
  - intros kw pre mid post Hkw -> Hmid.
    destruct (keywords_are_lower_ascii kw Hkw) as [Hkascii Hklower].
    assert (Hmascii : isAscii mid = true)
      by now apply (equalIgnoringCase_isAscii mid kw).
    destruct (Hplace pre mid post Hmascii) as (before & after & Hlower).
    unfold lower. rewrite Hlower.
    apply equalIgnoringCase_toLowerCase in Hmid.
    rewrite Hmid, (toLowerCase_hasNoUpper kw Hklower).
    apply includes_spec. now exists before, after.
  - intros Htext kw Hkw Hmatch.
    destruct (keywords_are_lower_ascii kw Hkw) as [_ Hklower].
    unfold lower in Hmatch. rewrite (Hascii chatText Htext) in Hmatch.
    apply includes_toLowerCase in Hmatch.
    destruct Hmatch as (pre & mid & post & Htext' & Hmid).
    exists pre, mid, post. split; [exact Htext'|].
    apply equalIgnoringCase_toLowerCase.
    now rewrite Hmid, (toLowerCase_hasNoUpper kw Hklower).
Qed.

Lemma analyzeChatSentiment_first_match_per_category_witness :
  Js.includes (Js.toLowerCase "I feel PaNiC now") "panic" = true.
Proof.
  apply (proj1 (proj2 (proj2 (analyzeChatSentiment_first_match_per_category
                                Js.toLowerCase "I feel PaNiC now"
                                toLowerCase_hostLowerCase)))
           "panic" "I feel " "PaNiC" " now").
  - cbn. left. reflexivity.
  - reflexivity.
  - reflexivity.
Defined.

(** ** Sentiment priority *)

(** In the score the crisis branch shuts the other two out: once the text
    has a crisis keyword, the sentiment points are decided by the crisis
    rule alone, whatever the other two flags are. *)
Lemma crisis_decides_sentimentAlignment :
  forall (t : CopingTool) (context : RecommendationContext),
    hasCrisis (analyzeChatSentiment (recentChatSummary context)) = true ->
    sentimentAlignment t context
    = match category t with breathing | grounding => 30 | _ => 0 end.
Proof.
  intros t context H. unfold sentimentAlignment. cbv zeta. now rewrite H.
Qed.

(** C2. A summary with both a crisis and a stress keyword, and a movement
    tool: the stress branch adds nothing to the score (the tool gets 40 for
    the mood, 0 for the sentiment, 10 for the intensity), yet the
    explanation carries the stress fragment, because [generateExplanation]
    tests each flag together with the category and so falls through from
    the crisis test to the stress test. *)
Theorem stress_fragment_despite_crisis :
  let s := analyzeChatSentiment (recentChatSummary panicAndStress) in
  hasCrisis s = true /\ hasStress s = true /\
  category quickExercises = movement /\
  sentimentAlignment quickExercises panicAndStress = 0 /\
  scoreTool quickExercises panicAndStress = 50 /\
  explanationReasons quickExercises panicAndStress
  = ["you felt anxious today"; "you mentioned feeling stressed or tense"] /\
  generateExplanation quickExercises panicAndStress
  = "This technique is suggested because you felt anxious today and you mentioned feeling stressed or tense.".
Proof. vm_compute. repeat split; reflexivity. Qed.

(** ** Ranking *)

Section Sorting.

Context {A : Type} (cmp : A -> A -> Z).

Lemma insert_length : forall (x : A) (l : list A),
  List.length (Js.insert cmp x l) = S (List.length l).
Proof.
  intros x l. induction l as [|y l IH]; simpl; [reflexivity|].
  destruct (cmp x y <=? 0); simpl; [reflexivity | now rewrite IH].
Qed.

Lemma sort_length : forall (l : list A),
  List.length (Js.sort cmp l) = List.length l.
Proof.
  induction l as [|x l IH]; simpl; [reflexivity|].
  now rewrite insert_length, IH.
Qed.

Lemma insert_perm : forall (x : A) (l : list A),
  Permutation (x :: l) (Js.insert cmp x l).
Proof.
  intros x l. induction l as [|y l IH]; simpl; [reflexivity|].
  destruct (cmp x y <=? 0); [reflexivity|].
  rewrite perm_swap. now apply perm_skip.
Qed.

Lemma sort_perm : forall (l : list A), Permutation l (Js.sort cmp l).
Proof.
  induction l as [|x l IH]; simpl; [constructor|].
  rewrite <- insert_perm. now apply perm_skip.
Qed.

(** An element is inserted in front of everything it ties with: a filter
    that drops whatever must precede [x] sees [x] first. *)
Lemma filter_insert : forall (p : A -> bool) (x : A) (l : list A),
  (forall y, 0 < cmp x y -> p x = true -> p y = false) ->
  filter p (Js.insert cmp x l) = filter p (x :: l).
Proof.
  intros p x l Hp. induction l as [|y l IH]; [reflexivity|].
  cbn [Js.insert]. destruct (cmp x y <=? 0) eqn:E; [reflexivity|].
  apply Z.leb_gt in E. cbn [filter] in *. rewrite IH.
  destruct (p x) eqn:Hx; [|reflexivity].
  now rewrite (Hp y E eq_refl).
Qed.

Lemma filter_sort : forall (p : A -> bool) (l : list A),
  (forall x y, 0 < cmp x y -> p x = true -> p y = false) ->
  filter p (Js.sort cmp l) = filter p l.
Proof.
  intros p l Hp. induction l as [|x l IH]; [reflexivity|].
  cbn [Js.sort]. rewrite filter_insert by (apply Hp).
  cbn [filter]. now rewrite IH.
Qed.

End Sorting.

Lemma insert_descending : forall (x : RecommendedTool) (l : list RecommendedTool),
  StronglySorted descending l ->
  StronglySorted descending (Js.insert byScoreDescending x l).
Proof.
  intros x l Hl. induction l as [|y l IH]; simpl.
  - repeat constructor.
  - apply StronglySorted_inv in Hl. destruct Hl as [Hl Hy].
    unfold byScoreDescending at 1.
    destruct (score y - score x <=? 0) eqn:E.
    + apply Z.leb_le in E. constructor; [now constructor|].
      constructor; [unfold descending; lia|].
      apply Forall_impl with (2 := Hy). unfold descending. intros z Hz. lia.
    + apply Z.leb_gt in E. constructor; [now apply IH|].
      apply Permutation_Forall with (1 := insert_perm byScoreDescending x l).
      constructor; [unfold descending; lia | assumption].
Qed.

Lemma sort_descending : forall (l : list RecommendedTool),
  StronglySorted descending (Js.sort byScoreDescending l).
Proof.
  induction l as [|x l IH]; simpl; [constructor | now apply insert_descending].
Qed.

Lemma hasScore_skips_higher : forall (v : Z) (x y : RecommendedTool),
  0 < byScoreDescending x y -> hasScore v x = true -> hasScore v y = false.
Proof.
  unfold byScoreDescending, hasScore. intros v x y Hlt Hx.
  apply Z.eqb_eq in Hx. apply Z.eqb_neq. lia.
Qed.

(** C5. The ranking is in non-increasing order of score, and for every
    score value the tools ranked with it are the catalog's tools with that
    score in catalog order: ties keep their catalog order. *)
Theorem ranking_descending_and_stable :
  forall (tools : list CopingTool) (context : RecommendationContext),
    let ranked := getRecommendedCopingTools tools context in
    StronglySorted descending ranked /\
    (forall r, In r ranked -> score r = scoreTool (tool r) context) /\
    (forall v : Z,
        map tool (filter (hasScore v) ranked)
        = filter (fun t => scoreTool t context =? v) tools).
Proof.
  intros tools context ranked. unfold ranked, getRecommendedCopingTools.
  split; [apply sort_descending | split].
  - intros r Hr.
    apply (Permutation_in r (Permutation_sym (sort_perm byScoreDescending _))) in Hr.
    apply in_map_iff in Hr. destruct Hr as (t & <- & _). reflexivity.
  - intro v. rewrite filter_sort by (apply hasScore_skips_higher).
    induction tools as [|t tools IH]; [reflexivity|].
    cbn [map filter hasScore score]. unfold hasScore at 1. cbn [score].
    destruct (scoreTool t context =? v); cbn [map tool]; now rewrite IH.
Qed.

(** C6. The ranking has exactly as many entries as the catalog, and they
    are the catalog's tools: nothing is filtered out or dropped, and the
    empty catalog gives the empty ranking. *)
Theorem ranking_keeps_every_tool :
  forall (tools : list CopingTool) (context : RecommendationContext),
    List.length (getRecommendedCopingTools tools context) = List.length tools /\
    Permutation tools (map tool (getRecommendedCopingTools tools context)) /\
    getRecommendedCopingTools [] context = [].
Proof.
  intros tools context. unfold getRecommendedCopingTools. split; [|split].
  - now rewrite sort_length, length_map.
  - rewrite <- (sort_perm byScoreDescending). rewrite map_map. cbn [tool].
    now rewrite map_id.
  - reflexivity.
Qed.

(** ** Context construction *)

Lemma lookup_outside_enum : forall (m : Mood),
  ~ In m MOODS -> lookup intensityMap m = Js.NonNumeric.
Proof.
  intros m Hout. unfold intensityMap. cbn [lookup].
  repeat match goal with
         | |- context [(?k =? m)%string] =>
             destruct (String.eqb_spec k m) as [<- | _];
             [exfalso; apply Hout; cbn; tauto|]
         end.
  reflexivity.
Qed.

Lemma lookup_inside_enum : forall (m : Mood),
  In m MOODS -> exists v, lookup intensityMap m = Js.Num v /\ In (m, v) intensityMap.
Proof.
  intros m Hin. cbn in Hin.
  repeat (destruct Hin as [<- | Hin];
          [eexists; split; [reflexivity | cbn; tauto] |]).
  contradiction.
Qed.

(** C3, as the code has it.  Construction never fails and never checks the
    mood: the mood of the first today-dated check-in is stored as it is;
    the intensity is the table entry for the six moods, the default 5 for
    the empty string, and not a number for any other value. *)
Theorem buildRecommendationContext_keeps_stored_mood :
  forall (cal : Calendar) (checkIns : list CheckIn)
         (chatMessages : option (list ChatMessage)),
  exists context,
    callBuildRecommendationContext cal checkIns chatMessages = Js.Normal context /\
    forall (first : CheckIn) (rest : list CheckIn),
      filter (datedToday cal) checkIns = first :: rest ->
      currentMood context = Some (mood first) /\
      (In (mood first) MOODS ->
       exists v, moodIntensity context = Js.Num v /\ In (mood first, v) intensityMap) /\
      (mood first = EmptyString -> moodIntensity context = Js.Num 5) /\
      (mood first <> EmptyString -> ~ In (mood first) MOODS ->
       moodIntensity context = Js.NonNumeric).
Proof.
  intros cal checkIns chatMessages.
  exists (buildRecommendationContext cal checkIns chatMessages).
  split; [reflexivity|]. intros first rest Hfirst.
  unfold buildRecommendationContext. fold (datedToday cal). rewrite Hfirst.
  cbn [currentMood moodIntensity]. unfold getMoodIntensity, truthy.
  split; [reflexivity|]. split; [|split].
  - intro Hin. destruct (String.eqb_spec (mood first) EmptyString) as [E | _].
    + rewrite E in Hin. cbn in Hin. exfalso.
      repeat (destruct Hin as [Hin | Hin]; [discriminate Hin|]). exact Hin.
    + cbn [negb]. now apply lookup_inside_enum.
  - intros ->. reflexivity.
  - intros Hne Hout. apply String.eqb_neq in Hne. rewrite Hne. cbn [negb].
    now apply lookup_outside_enum.
Qed.

Lemma buildRecommendationContext_keeps_stored_mood_witness :
  exists context,
    callBuildRecommendationContext firstOfNovember
      [mkCheckIn "angry" "2026-11-01T08:30:00"] None = Js.Normal context /\
    currentMood context = Some "angry" /\
    moodIntensity context = Js.NonNumeric.
Proof.
  destruct (buildRecommendationContext_keeps_stored_mood firstOfNovember
              [mkCheckIn "angry" "2026-11-01T08:30:00"] None)
    as (context & Hcall & Hfirst).
  exists context. split; [exact Hcall|].
  destruct (Hfirst (mkCheckIn "angry" "2026-11-01T08:30:00") [] eq_refl)
    as (Hmood & _ & _ & Hout).
  split; [exact Hmood|]. apply Hout.
  - discriminate.
  - cbn. intros [H | [H | [H | [H | [H | [H | []]]]]]]; discriminate H.
Defined.

(** C3, as the specification states it, fails: a today-dated check-in with
    the mood "angry", which is outside the closed set, is not rejected;
    construction returns a context holding that mood and no numeric
    intensity.  With the empty string as the mood the intensity is the
    default 5. *)
Lemma mood_outside_enum_not_rejected :
  ~ In "angry" MOODS /\
  datedToday firstOfNovember (mkCheckIn "angry" "2026-11-01T08:30:00") = true /\
  callBuildRecommendationContext firstOfNovember
    [mkCheckIn "angry" "2026-11-01T08:30:00"] None
  = Js.Normal (mkContext (Some "angry") Js.NonNumeric EmptyString []) /\
  callBuildRecommendationContext firstOfNovember
    [mkCheckIn EmptyString "2026-11-01T08:30:00"] None
  = Js.Normal (mkContext (Some EmptyString) (Js.Num 5) EmptyString []) /\
  ~ rejectsMoodOutsideEnum.
Proof.
  assert (Hout : ~ In "angry" MOODS).
  { cbn. intros [H | [H | [H | [H | [H | [H | []]]]]]]; discriminate H. }
  split; [exact Hout|]. split; [reflexivity|].
  split; [reflexivity|]. split; [reflexivity|].
  intro Hrejects.
  destruct (Hrejects firstOfNovember [mkCheckIn "angry" "2026-11-01T08:30:00"]
              None (mkCheckIn "angry" "2026-11-01T08:30:00"))
    as (msg & Hthrow).
  - left. reflexivity.
  - reflexivity.
  - exact Hout.
  - discriminate Hthrow.
Qed.

Lemma empty_summary_sentiment :
  analyzeChatSentiment EmptyString = mkSentiment [] false false false.
Proof. reflexivity. Qed.

(** C8. Edge inputs give defaults, not failures.  With no check-in dated
    today the current mood is absent and the intensity is 5; with an empty
    sequence of chat messages the summary is the empty string, the three
    sentiment flags are false and no keyword is recorded. *)
Theorem buildRecommendationContext_edge_defaults :
  (forall (cal : Calendar) (checkIns : list CheckIn)
          (chatMessages : option (list ChatMessage)),
      (forall item, In item checkIns -> datedToday cal item = false) ->
      exists context,
        callBuildRecommendationContext cal checkIns chatMessages = Js.Normal context /\
        currentMood context = None /\
        moodIntensity context = Js.Num 5) /\
  (forall (cal : Calendar) (checkIns : list CheckIn),
      exists context,
        callBuildRecommendationContext cal checkIns (Some []) = Js.Normal context /\
        recentChatSummary context = EmptyString /\
        hasCrisis (analyzeChatSentiment (recentChatSummary context)) = false /\
        hasLowMood (analyzeChatSentiment (recentChatSummary context)) = false /\
        hasStress (analyzeChatSentiment (recentChatSummary context)) = false /\
        keywords (analyzeChatSentiment (recentChatSummary context)) = [] /\
        chatKeywords context = []).
Proof.
  split.
  - intros cal checkIns chatMessages Hnone.
    exists (buildRecommendationContext cal checkIns chatMessages).
    split; [reflexivity|].
    assert (Hfilter : filter (datedToday cal) checkIns = []).
    { induction checkIns as [|item checkIns IH]; [reflexivity|].
      cbn [filter]. rewrite (Hnone item (or_introl eq_refl)).
      apply IH. intros i Hi. apply Hnone. now right. }
    unfold buildRecommendationContext. fold (datedToday cal). rewrite Hfilter.
    split; reflexivity.
  - intros cal checkIns.
    exists (buildRecommendationContext cal checkIns (Some [])).
    split; [reflexivity|].
    unfold buildRecommendationContext.
    cbn [recentChatSummary chatKeywords Js.slice0 firstn map Js.join].
    rewrite empty_summary_sentiment. repeat split; reflexivity.
Qed.

Lemma buildRecommendationContext_edge_defaults_witness :
  exists context,
    callBuildRecommendationContext firstOfNovember
      [mkCheckIn "sad" "2026-10-31T21:15:00"] (Some []) = Js.Normal context /\
    currentMood context = None /\
    moodIntensity context = Js.Num 5.
Proof.
  apply (proj1 buildRecommendationContext_edge_defaults).
  intros item [<- | []]. reflexivity.
Defined.

(** * Further properties of the engine *)

(** ** The score *)

Lemma moodCompatibility_values :
  forall (t : CopingTool) (context : RecommendationContext),
    moodCompatibility t context = 0 \/ moodCompatibility t context = 20 \/
    moodCompatibility t context = 40.
Proof.
  intros t context. unfold moodCompatibility.
  destruct (currentMood context) as [m|]; [|auto].
  destruct (m =? EmptyString)%string; [auto|].
  destruct (existsb (String.eqb m) (supportedMoods t)); auto.
Qed.

Lemma sentimentAlignment_values :
  forall (t : CopingTool) (context : RecommendationContext),
    sentimentAlignment t context = 0 \/ sentimentAlignment t context = 30.
Proof.
  intros t context. unfold sentimentAlignment. cbv zeta.
  destruct (analyzeChatSentiment (recentChatSummary context)) as [ks c l s].
  cbn [hasCrisis hasLowMood hasStress].
  destruct c, l, s, (category t); auto.
Qed.

Lemma intensityMatching_values :
  forall (t : CopingTool) (context : RecommendationContext),
    intensityMatching t context = 0 \/ intensityMatching t context = 10 \/
    intensityMatching t context = 15 \/ intensityMatching t context = 20.
Proof.
  intros t context. unfold intensityMatching.
  destruct (Js.geb (moodIntensity context) 7),
    (Js.geb (moodIntensity context) 4), (intensityLevel t); auto.
Qed.

Lemma durationPreference_values :
  forall (t : CopingTool) (context : RecommendationContext),
    durationPreference t context = 0 \/ durationPreference t context = 5 \/
    durationPreference t context = 10.
Proof.
  intros t context. unfold durationPreference.
  destruct (currentMood context) as [m|];
    [destruct ((m =? EmptyString) || (m =? "neutral"))%string|];
    destruct (durationMinutes t <=? 3), (durationMinutes t <=? 5); auto.
Qed.

(** The component sum stays within the cap. *)
Lemma scoreTool_plain_sum :
  forall (t : CopingTool) (context : RecommendationContext),
    scoreTool t context
    = moodCompatibility t context + sentimentAlignment t context
      + intensityMatching t context + durationPreference t context.
Proof.
  intros t context. rewrite scoreTool_sum.
  pose proof (moodCompatibility_bounds t context).
  pose proof (sentimentAlignment_bounds t context).
  pose proof (intensityMatching_bounds t context).
  pose proof (durationPreference_bounds t context).
  lia.
Qed.

(** X1. [Math.min(score, 100)] never changes the running total: the score
    is the plain sum of the four components, and it is a multiple of 5. *)
Theorem scoreTool_cap_never_applies :
  forall (t : CopingTool) (context : RecommendationContext),
    scoreTool t context
    = moodCompatibility t context + sentimentAlignment t context
      + intensityMatching t context + durationPreference t context /\
    scoreTool t context mod 5 = 0.
Proof.
  intros t context. split; [apply scoreTool_plain_sum|].
  rewrite scoreTool_plain_sum.
  destruct (moodCompatibility_values t context) as [Ha | [Ha | Ha]],
    (sentimentAlignment_values t context) as [Hb | Hb],
    (intensityMatching_values t context) as [Hc | [Hc | [Hc | Hc]]],
    (durationPreference_values t context) as [Hd | [Hd | Hd]];
    rewrite Ha, Hb, Hc, Hd; reflexivity.
Qed.

(** The duration points need the mood to be absent or neutral, the full
    mood points need it to be present. *)
Lemma durationPreference_positive :
  forall (t : CopingTool) (context : RecommendationContext),
    0 < durationPreference t context ->
    truthy (currentMood context) = false \/ currentMood context = Some "neutral".
Proof.
  intros t context. unfold durationPreference, truthy.
  destruct (currentMood context) as [m|]; [|auto].
  destruct (String.eqb_spec m EmptyString) as [-> | _]; [auto|].
  destruct (String.eqb_spec m "neutral") as [-> | _]; [auto|].
  cbn. lia.
Qed.

Lemma moodCompatibility_positive :
  forall (t : CopingTool) (context : RecommendationContext),
    0 < moodCompatibility t context -> truthy (currentMood context) = true.
Proof.
  intros t context. unfold moodCompatibility, truthy.
  destruct (currentMood context) as [m|]; [|lia].
  destruct (m =? EmptyString)%string; [lia | reflexivity].
Qed.

(** X2. How high a score can go depends on the mood: at most 60 without a
    current mood, at most 90 with a current mood other than neutral; a
    score of 100 needs the mood neutral, supported by the tool, and a tool
    of at most 3 minutes. *)
Theorem scoreTool_ceiling_by_mood :
  forall (t : CopingTool) (context : RecommendationContext),
    (truthy (currentMood context) = false -> scoreTool t context <= 60) /\
    (currentMood context <> Some "neutral" -> scoreTool t context <= 90) /\
    (scoreTool t context = 100 ->
     currentMood context = Some "neutral" /\
     In "neutral" (supportedMoods t) /\ durationMinutes t <= 3).
Proof.
  intros t context.
  pose proof (scoreTool_plain_sum t context) as Hsum.
  pose proof (moodCompatibility_values t context) as Ha.
  pose proof (sentimentAlignment_bounds t context) as Hb.
  pose proof (intensityMatching_bounds t context) as Hc.
  pose proof (durationPreference_values t context) as Hd.
  pose proof (moodCompatibility_positive t context) as Hmood.
  pose proof (durationPreference_positive t context) as Hdur.
  assert (Hneutral : 0 < moodCompatibility t context ->
                     0 < durationPreference t context ->
                     currentMood context = Some "neutral").
  { intros H1 H2. destruct (Hdur H2) as [Hf | Hn]; [|exact Hn].
    rewrite (Hmood H1) in Hf. discriminate Hf. }
  split; [|split].
  - intro Hf. destruct Ha as [Ha | [Ha | Ha]]; try lia;
      (assert (Ht : truthy (currentMood context) = true) by (apply Hmood; lia));
      rewrite Ht in Hf; discriminate Hf.
  - intro Hnot.
    destruct (Z_lt_le_dec 0 (moodCompatibility t context)) as [H1 | H1];
      destruct (Z_lt_le_dec 0 (durationPreference t context)) as [H2 | H2];
      try lia.
    elim Hnot. now apply Hneutral.
  - intro H100.
    assert (H40 : moodCompatibility t context = 40) by lia.
    assert (H10 : durationPreference t context = 10) by lia.
    assert (Hn : currentMood context = Some "neutral") by (apply Hneutral; lia).
    split; [exact Hn|]. split.
    + destruct (in_dec string_dec "neutral" (supportedMoods t)) as [Hin | Hout];
        [exact Hin|].
      rewrite (moodCompatibility_unsupported t context "neutral" Hn) in H40;
        [discriminate H40 | discriminate | exact Hout].
    + unfold durationPreference in H10. rewrite Hn in H10. cbn in H10.
      destruct (durationMinutes t <=? 3) eqn:E; [now apply Z.leb_le|].
      destruct (durationMinutes t <=? 5); discriminate H10.
Qed.

Lemma scoreTool_ceiling_by_mood_witness :
  scoreTool boxBreathing scenarioC <= 60 /\
  scoreTool boxBreathing scenarioA <= 90 /\
  In "neutral" (supportedMoods breathing478).
Proof.
  split; [|split].
  - apply (proj1 (scoreTool_ceiling_by_mood boxBreathing scenarioC)). reflexivity.
  - apply (proj1 (proj2 (scoreTool_ceiling_by_mood boxBreathing scenarioA))).
    discriminate.
  - apply (proj2 (proj2 (scoreTool_ceiling_by_mood breathing478 neutralCrisis))).
    vm_compute. reflexivity.
Defined.

(** X3. Scoring and explanation read four fields of a tool: two tools with
    the same category, supported moods, intensity level and duration get
    the same score and the same explanation, whatever their identifier,
    title, description, icon, colour and dialog type. *)
Theorem presentation_fields_never_consulted :
  forall (t1 t2 : CopingTool) (context : RecommendationContext),
    sameClinicalFields t1 t2 ->
    scoreTool t1 context = scoreTool t2 context /\
    generateExplanation t1 context = generateExplanation t2 context.
Proof.
  intros [i1 n1 d1 c1 m1 l1 u1 ic1 co1 ty1] [i2 n2 d2 c2 m2 l2 u2 ic2 co2 ty2] context.
  unfold sameClinicalFields.
  cbn [category supportedMoods intensityLevel durationMinutes].
  intros (-> & -> & -> & ->). split; reflexivity.
Qed.

Lemma presentation_fields_never_consulted_witness :
  scoreTool boxBreathing scenarioA = scoreTool boxBreathingRenamed scenarioA /\
  generateExplanation boxBreathing scenarioA
  = generateExplanation boxBreathingRenamed scenarioA.
Proof.
  apply (presentation_fields_never_consulted boxBreathing boxBreathingRenamed).
  repeat split.
Defined.

(** ** The explanation *)

(** X4. Sentiment points are always explained: a tool that gets the 30
    sentiment points has, among its reasons, the fragment of the branch
    that gave them. *)
Theorem sentiment_points_are_explained :
  forall (t : CopingTool) (context : RecommendationContext),
    sentimentAlignment t context = 30 ->
    let s := analyzeChatSentiment (recentChatSummary context) in
    In (if hasCrisis s then "you mentioned feeling overwhelmed"
        else if hasLowMood s
             then "you expressed feelings of sadness or hopelessness"
             else "you mentioned feeling stressed or tense")
       (explanationReasons t context).
Proof.
  intros t context. unfold sentimentAlignment, explanationReasons, inCategory, push.
  cbv zeta.
  destruct (analyzeChatSentiment (recentChatSummary context)) as [ks c l s].
  cbn [hasCrisis hasLowMood hasStress].
  set (reasons := match currentMood context with
                  | Some moodLabel => _
                  | None => _
                  end).
  intro H30.
  destruct (Js.geb (moodIntensity context) 7 && levelEqb (intensityLevel t) high);
    destruct c, l, s, (category t); cbn in H30 |- *; try discriminate H30;
    rewrite ?in_app_iff; cbn; tauto.
Qed.

Lemma sentiment_points_are_explained_witness :
  In "you mentioned feeling overwhelmed" (explanationReasons boxBreathing scenarioA).
Proof.
  apply (sentiment_points_are_explained boxBreathing scenarioA). reflexivity.
Defined.

(** ** The ranking *)

(** The head of a sorted array came after nothing it ties with and before
    nothing that beats it. *)
Lemma sort_head_first_maximum :
  forall (l : list RecommendedTool) (r : RecommendedTool) (rest : list RecommendedTool),
    Js.sort byScoreDescending l = r :: rest ->
    exists before after,
      l = (before ++ r :: after)%list /\
      (forall b, In b before -> score b < score r) /\
      (forall a, In a after -> score a <= score r).
Proof.
  induction l as [|x l IH]; intros r rest Hsort; [discriminate Hsort|].
  cbn [Js.sort] in Hsort.
  destruct (Js.sort byScoreDescending l) as [|r' rest'] eqn:Hl.
  - assert (l = []) as ->.
    { apply length_zero_iff_nil.
      rewrite <- (sort_length byScoreDescending l), Hl. reflexivity. }
    cbn in Hsort. injection Hsort as <- _.
    exists [], []. repeat split; intros ? [].
  - destruct (IH r' rest' eq_refl) as (before & after & -> & Hbefore & Hafter).
    cbn [Js.insert] in Hsort. unfold byScoreDescending at 1 in Hsort.
    destruct (score r' - score x <=? 0) eqn:E.
    + apply Z.leb_le in E. injection Hsort as <- _.
      exists [], (before ++ r' :: after)%list.
      split; [reflexivity|]. split; [intros ? []|].
      intros a Ha. apply in_app_iff in Ha. destruct Ha as [Ha | [<- | Ha]].
      * specialize (Hbefore a Ha). lia.
      * lia.
      * specialize (Hafter a Ha). lia.
    + apply Z.leb_gt in E. injection Hsort as <- _.
      exists (x :: before), after.
      split; [reflexivity|]. split; [|exact Hafter].
      intros b [<- | Hb]; [lia | now apply Hbefore].
Qed.

Lemma calming_dec : forall (t : CopingTool), {calming t} + {~ calming t}.
Proof.
  intro t. unfold calming.
  destruct (category t); (left; auto; fail) || (right; intros [H | H]; discriminate H).
Qed.

Lemma top_first_best_bound :
  forall (tools : list CopingTool) (context : RecommendationContext)
         (r : RecommendedTool) (rest : list RecommendedTool),
    getRecommendedCopingTools tools context = r :: rest ->
    score r = scoreTool (tool r) context /\
    forall t, In t tools -> scoreTool t context <= score r.
Proof.
  intros tools context r rest Hrank. unfold getRecommendedCopingTools in Hrank.
  destruct (sort_head_first_maximum _ _ _ Hrank)
    as (before & after & Hsplit & Hbefore & Hafter).
  assert (Hall : forall x, In x (map (fun t => mkRecommended t (scoreTool t context)
                                               (generateExplanation t context)) tools) ->
                           score x <= score r).
  { intros x Hx. rewrite Hsplit in Hx. apply in_app_iff in Hx.
    destruct Hx as [Hx | [<- | Hx]];
      [specialize (Hbefore x Hx); lia | lia | now apply Hafter]. }
  split.
  - assert (Hr : In r (map (fun t => mkRecommended t (scoreTool t context)
                                       (generateExplanation t context)) tools)).
    { rewrite Hsplit. apply in_app_iff. right. now left. }
    apply in_map_iff in Hr. destruct Hr as (t & <- & _). reflexivity.
  - intros t Hin. apply (Hall (mkRecommended t (scoreTool t context) (generateExplanation t context))).
    apply in_map_iff. now exists t.
Qed.

(** X5. The first recommendation is the first tool of the catalog among
    those with the highest score: the tools before it in the catalog score
    strictly less, the tools after it score no more, and the entry carries
    that tool's own score and explanation. *)
Theorem top_recommendation_is_first_best :
  forall (tools : list CopingTool) (context : RecommendationContext)
         (r : RecommendedTool) (rest : list RecommendedTool),
    getRecommendedCopingTools tools context = r :: rest ->
    score r = scoreTool (tool r) context /\
    reason r = generateExplanation (tool r) context /\
    exists before after,
      tools = (before ++ tool r :: after)%list /\
      (forall t, In t before -> scoreTool t context < score r) /\
      (forall t, In t after -> scoreTool t context <= score r).
Proof.
  intros tools context r rest Hrank. unfold getRecommendedCopingTools in Hrank.
  destruct (sort_head_first_maximum _ _ _ Hrank)
    as (before & after & Hsplit & Hbefore & Hafter).
  apply map_eq_app in Hsplit. destruct Hsplit as (tb & tl & -> & Hb & Hl).
  apply map_eq_cons in Hl. destruct Hl as (t & ta & -> & Hr & Ha).
  subst r before after. cbn [tool score reason] in *.
  split; [reflexivity|]. split; [reflexivity|].
  exists tb, ta. split; [reflexivity|]. split.
  - intros t' Hin. apply (Hbefore (mkRecommended t' (scoreTool t' context)
                                  (generateExplanation t' context))).
    apply in_map_iff. now exists t'.
  - intros t' Hin. apply (Hafter (mkRecommended t' (scoreTool t' context)
                                 (generateExplanation t' context))).
    apply in_map_iff. now exists t'.
Qed.

Lemma top_recommendation_is_first_best_witness :
  score (mkRecommended boxBreathing 90
           (generateExplanation boxBreathing scenarioA))
  = scoreTool boxBreathing scenarioA.
Proof.
  apply (top_recommendation_is_first_best
           [boxBreathing; grounding54321] scenarioA
           (mkRecommended boxBreathing 90 (generateExplanation boxBreathing scenarioA))
           [mkRecommended grounding54321 90
              (generateExplanation grounding54321 scenarioA)]).
  reflexivity.
Defined.

Lemma descending_scores : forall (l : list RecommendedTool),
  StronglySorted descending l -> StronglySorted Z.ge (map score l).
Proof.
  intros l Hl. induction Hl as [|x l Hl IH Hx]; cbn; constructor; [exact IH|].
  apply Forall_map. apply Forall_impl with (2 := Hx).
  unfold descending. intros y Hy. lia.
Qed.

Lemma descending_permutation_unique : forall (l1 l2 : list Z),
  StronglySorted Z.ge l1 -> StronglySorted Z.ge l2 -> Permutation l1 l2 -> l1 = l2.
Proof.
  induction l1 as [|a l1 IH]; intros l2 H1 H2 Hperm.
  - apply Permutation_nil in Hperm. now subst.
  - destruct l2 as [|b l2]; [apply Permutation_sym, Permutation_nil in Hperm;
                              discriminate Hperm|].
    apply StronglySorted_inv in H1. destruct H1 as [H1 Ha].
    apply StronglySorted_inv in H2. destruct H2 as [H2 Hb].
    assert (a = b) as ->.
    { assert (Hab : In a (b :: l2))
        by (apply (Permutation_in a Hperm); now left).
      assert (Hba : In b (a :: l1))
        by (apply (Permutation_in b (Permutation_sym Hperm)); now left).
      rewrite Forall_forall in Ha, Hb.
      destruct Hab as [-> | Hab]; [reflexivity|].
      destruct Hba as [-> | Hba]; [reflexivity|].
      specialize (Ha b Hba). specialize (Hb a Hab). lia. }
    f_equal. apply IH; try assumption.
    now apply Permutation_cons_inv in Hperm.
Qed.

(** X6. The order of the catalog matters for ties only: two catalogs with
    the same tools in different orders give rankings with the same sequence
    of scores. *)
Theorem ranking_scores_ignore_catalog_order :
  forall (tools1 tools2 : list CopingTool) (context : RecommendationContext),
    Permutation tools1 tools2 ->
    map score (getRecommendedCopingTools tools1 context)
    = map score (getRecommendedCopingTools tools2 context).
Proof.
  intros tools1 tools2 context Hperm. unfold getRecommendedCopingTools.
  apply descending_permutation_unique.
  - apply descending_scores, sort_descending.
  - apply descending_scores, sort_descending.
  - apply Permutation_map.
    rewrite <- !(sort_perm byScoreDescending).
    now apply Permutation_map.
Qed.

Lemma ranking_scores_ignore_catalog_order_witness :
  map score (getRecommendedCopingTools [quickExercises; boxBreathing] scenarioA)
  = map score (getRecommendedCopingTools [boxBreathing; quickExercises] scenarioA).
Proof.
  apply ranking_scores_ignore_catalog_order. apply perm_swap.
Defined.

Lemma moodCompatibility_gap :
  forall (t t' : CopingTool) (context : RecommendationContext),
    moodCompatibility t context <= moodCompatibility t' context + 20.
Proof.
  intros t t' context. unfold moodCompatibility.
  destruct (currentMood context) as [m|]; [|lia].
  destruct (m =? EmptyString)%string; [lia|].
  destruct (existsb (String.eqb m) (supportedMoods t)),
    (existsb (String.eqb m) (supportedMoods t')); lia.
Qed.

Lemma durationPreference_short :
  forall (t t' : CopingTool) (context : RecommendationContext),
    durationMinutes t' <= 3 ->
    durationPreference t context <= durationPreference t' context.
Proof.
  intros t t' context Hshort. apply Z.leb_le in Hshort.
  unfold durationPreference. rewrite Hshort.
  destruct (currentMood context) as [m|];
    [destruct ((m =? EmptyString) || (m =? "neutral"))%string|];
    destruct (durationMinutes t <=? 3), (durationMinutes t <=? 5); lia.
Qed.

Lemma intensityMatching_full :
  forall (context : RecommendationContext),
    exists level, forall t, intensityLevel t = level -> intensityMatching t context = 20.
Proof.
  intro context. unfold intensityMatching.
  destruct (Js.geb (moodIntensity context) 7);
    [exists high | destruct (Js.geb (moodIntensity context) 4);
                   [exists medium | exists low]];
    intros t ->; reflexivity.
Qed.

(** X7. Crisis puts breathing and grounding first.  When the chat has a
    crisis keyword and the catalog has, for each intensity level, a
    breathing or grounding tool of at most 3 minutes, the first
    recommendation is a breathing or grounding tool, and it scores strictly
    more than every tool of another category. *)
Theorem crisis_ranks_calming_tool_first :
  forall (tools : list CopingTool) (context : RecommendationContext)
         (r : RecommendedTool) (rest : list RecommendedTool),
    hasCrisis (analyzeChatSentiment (recentChatSummary context)) = true ->
    (forall level, exists t,
        In t tools /\ calming t /\ intensityLevel t = level /\ durationMinutes t <= 3) ->
    getRecommendedCopingTools tools context = r :: rest ->
    calming (tool r) /\
    forall t, In t tools -> ~ calming t -> scoreTool t context < score r.
Proof.
  intros tools context r rest Hcrisis Hcatalog Hrank.
  destruct (top_first_best_bound tools context r rest Hrank) as (Hscore & Hmax).
  destruct (intensityMatching_full context) as (level & Hlevel).
  destruct (Hcatalog level) as (t' & Hin' & Hcalm' & Hlvl' & Hshort').
  assert (Hbeat : forall t, ~ calming t -> scoreTool t context < scoreTool t' context).
  { intros t Hnot.
    rewrite (scoreTool_plain_sum t context), (scoreTool_plain_sum t' context).
    rewrite !(crisis_decides_sentimentAlignment _ context Hcrisis).
    rewrite (Hlevel t' Hlvl').
    pose proof (moodCompatibility_gap t t' context).
    pose proof (durationPreference_short t t' context Hshort').
    pose proof (intensityMatching_bounds t context).
    unfold calming in Hnot, Hcalm'.
    destruct (category t); try (elim Hnot; auto; fail);
      destruct Hcalm' as [-> | ->]; lia. }
  assert (Hcalm : calming (tool r)).
  { destruct (calming_dec (tool r)) as [Hc | Hn]; [exact Hc|].
    specialize (Hbeat (tool r) Hn). specialize (Hmax t' Hin'). lia. }
  split; [exact Hcalm|].
  intros t Hin Hnot. specialize (Hbeat t Hnot). specialize (Hmax t' Hin'). lia.
Qed.

Lemma crisis_ranks_calming_tool_first_witness :
  calming boxBreathing.
Proof.
  apply (crisis_ranks_calming_tool_first EVIDENCE_BASED_COPING_TOOLS scenarioA
           (mkRecommended boxBreathing 90 (generateExplanation boxBreathing scenarioA))
           (tl (getRecommendedCopingTools EVIDENCE_BASED_COPING_TOOLS scenarioA))).
  - vm_compute. reflexivity.
  - intros [ | | ].
    + exists simpleBreathing. cbn. unfold calming. cbn. intuition lia.
    + exists breathing478. cbn. unfold calming. cbn. intuition lia.
    + exists boxBreathing. cbn. unfold calming. cbn. intuition lia.
  - vm_compute. reflexivity.
Defined.

(** ** The analyzer on longer texts *)

Lemma string_app_assoc : forall (a b c : string), (a ++ b) ++ c = a ++ b ++ c.
Proof.
  induction a as [|x a IH]; intros b c; simpl; [reflexivity | now rewrite IH].
Qed.

Lemma includes_embedded : forall (pre s post kw : string),
  Js.includes s kw = true -> Js.includes (pre ++ s ++ post) kw = true.
Proof.
  intros pre s post kw H. apply includes_spec in H. destruct H as (p & q & ->).
  apply includes_spec. exists (pre ++ p), (q ++ post).
  now rewrite !string_app_assoc.
Qed.

Lemma existsb_includes_embedded : forall (kws : list string) (pre s post : string),
  existsb (Js.includes s) kws = true ->
  existsb (Js.includes (pre ++ s ++ post)) kws = true.
Proof.
  intros kws pre s post H. apply existsb_exists in H. destruct H as (kw & Hin & Hkw).
  apply existsb_exists. exists kw. split; [exact Hin | now apply includes_embedded].
Qed.

Lemma flags_of_analysis : forall (chatText : string),
  hasCrisis (analyzeChatSentiment chatText)
  = existsb (Js.includes (Js.toLowerCase chatText)) CRISIS_KEYWORDS /\
  hasLowMood (analyzeChatSentiment chatText)
  = existsb (Js.includes (Js.toLowerCase chatText)) LOW_MOOD_KEYWORDS /\
  hasStress (analyzeChatSentiment chatText)
  = existsb (Js.includes (Js.toLowerCase chatText)) STRESS_KEYWORDS.
Proof.
  intro chatText. rewrite analyzeChatSentiment_scans. repeat split.
Qed.

(** Under the fold, the flags a text raises are raised by every text that
    contains it. *)
Lemma flags_embedded : forall (pre chatText post : string),
  (hasCrisis (analyzeChatSentiment chatText) = true ->
   hasCrisis (analyzeChatSentiment (pre ++ chatText ++ post)) = true) /\
  (hasLowMood (analyzeChatSentiment chatText) = true ->
   hasLowMood (analyzeChatSentiment (pre ++ chatText ++ post)) = true) /\
  (hasStress (analyzeChatSentiment chatText) = true ->
   hasStress (analyzeChatSentiment (pre ++ chatText ++ post)) = true).
Proof.
  intros pre chatText post.
  destruct (flags_of_analysis chatText) as (-> & -> & ->).
  destruct (flags_of_analysis (pre ++ chatText ++ post)) as (-> & -> & ->).
  rewrite !toLowerCase_app.
  repeat split; apply existsb_includes_embedded.
Qed.

Lemma join_contains : forall (sep x : string) (l : list string),
  In x l -> exists pre post, Js.join sep l = pre ++ x ++ post.
Proof.
  intros sep x l. induction l as [|y l IH]; intros Hin; [contradiction|].
  destruct l as [|z l].
  - destruct Hin as [-> | []]. exists EmptyString, EmptyString. cbn.
    clear. induction x as [|c x IHx]; cbn; [reflexivity | now rewrite <- IHx].
  - change (Js.join sep (y :: z :: l)) with (y ++ sep ++ Js.join sep (z :: l)).
    destruct Hin as [-> | Hin].
    + exists EmptyString, (sep ++ Js.join sep (z :: l)). reflexivity.
    + destruct (IH Hin) as (pre & post & ->).
      exists (y ++ sep ++ pre), post. now rewrite !string_app_assoc.
Qed.

(** X8. A keyword in any of the first five messages is seen.  For chat
    messages of ASCII characters, each sentiment flag raised by one of the
    first five messages on its own is raised by the summary of the context
    that is built: joining the messages hides no match. *)
Theorem flags_of_recent_messages_reach_context :
  forall (cal : Calendar) (checkIns : list CheckIn)
         (messages : list ChatMessage) (m : ChatMessage),
    (forall m', In m' (firstn 5 messages) -> isAscii (text m') = true) ->
    In m (firstn 5 messages) ->
    let summary :=
      recentChatSummary (buildRecommendationContext cal checkIns (Some messages)) in
    (hasCrisis (analyzeChatSentiment (text m)) = true ->
     hasCrisis (analyzeChatSentiment summary) = true) /\
    (hasLowMood (analyzeChatSentiment (text m)) = true ->
     hasLowMood (analyzeChatSentiment summary) = true) /\
    (hasStress (analyzeChatSentiment (text m)) = true ->
     hasStress (analyzeChatSentiment summary) = true).
Proof.
  intros cal checkIns messages m _ Hin summary.
  assert (Hsummary : exists pre post, summary = pre ++ text m ++ post).
  { unfold summary, buildRecommendationContext. cbn [recentChatSummary].
    apply join_contains. unfold Js.slice0. now apply in_map. }
  destruct Hsummary as (pre & post & ->). apply flags_embedded.
Qed.

Lemma flags_of_recent_messages_reach_context_witness :
  hasCrisis
    (analyzeChatSentiment
       (recentChatSummary
          (buildRecommendationContext firstOfNovember []
             (Some [mkMessage "hello"; mkMessage "I am SCARED"])))) = true.
Proof.
  apply (flags_of_recent_messages_reach_context firstOfNovember []
           [mkMessage "hello"; mkMessage "I am SCARED"] (mkMessage "I am SCARED")).
  - intros m' [<- | [<- | []]]; reflexivity.
  - cbn. right. left. reflexivity.
  - vm_compute. reflexivity.
Defined.

(** ** Context construction, continued *)

(** X9. Only the first five chat messages are read, and a missing message
    array counts as an empty one. *)
Theorem context_reads_first_five_messages :
  forall (cal : Calendar) (checkIns : list CheckIn) (messages : list ChatMessage),
    buildRecommendationContext cal checkIns (Some messages)
    = buildRecommendationContext cal checkIns (Some (firstn 5 messages)) /\
    buildRecommendationContext cal checkIns None
    = buildRecommendationContext cal checkIns (Some []).
Proof.
  intros cal checkIns messages. unfold buildRecommendationContext, Js.slice0.
  rewrite firstn_firstn. split; reflexivity.
Qed.

Lemma filter_first_today :
  forall (cal : Calendar) (earlier : list CheckIn) (item : CheckIn) (later : list CheckIn),
    (forall e, In e earlier -> datedToday cal e = false) ->
    datedToday cal item = true ->
    filter (datedToday cal) (earlier ++ item :: later)
    = item :: filter (datedToday cal) later.
Proof.
  intros cal earlier item later Hearlier Hitem.
  induction earlier as [|e earlier IH]; cbn [app filter].
  - now rewrite Hitem.
  - rewrite (Hearlier e (or_introl eq_refl)). apply IH.
    intros e' He'. apply Hearlier. now right.
Qed.

(** X10. The first check-in dated today decides the mood: check-ins of
    other days before it and every check-in after it, today's included,
    leave the context unchanged.  The check-ins are never sorted by time. *)
Theorem first_today_checkIn_decides :
  forall (cal : Calendar) (earlier : list CheckIn) (item : CheckIn)
         (later : list CheckIn) (chatMessages : option (list ChatMessage)),
    (forall e, In e earlier -> datedToday cal e = false) ->
    datedToday cal item = true ->
    buildRecommendationContext cal (earlier ++ item :: later) chatMessages
    = buildRecommendationContext cal [item] chatMessages /\
    currentMood (buildRecommendationContext cal (earlier ++ item :: later) chatMessages)
    = Some (mood item).
Proof.
  intros cal earlier item later chatMessages Hearlier Hitem.
  unfold buildRecommendationContext. fold (datedToday cal).
  rewrite (filter_first_today cal earlier item later Hearlier Hitem).
  cbn [filter]. rewrite Hitem. split; reflexivity.
Qed.

Lemma first_today_checkIn_decides_witness :
  currentMood
    (buildRecommendationContext firstOfNovember
       ([mkCheckIn "happy" "2026-10-31T21:15:00"]
        ++ mkCheckIn "sad" "2026-11-01T08:30:00"
        :: [mkCheckIn "calm" "2026-11-01T08:30:00"]) None)
  = Some "sad".
Proof.
  apply (first_today_checkIn_decides firstOfNovember
           [mkCheckIn "happy" "2026-10-31T21:15:00"]
           (mkCheckIn "sad" "2026-11-01T08:30:00")
           [mkCheckIn "calm" "2026-11-01T08:30:00"] None).
  - intros e [<- | []]. reflexivity.
  - reflexivity.
Defined.

Lemma firstMatch_recorded : forall (lower : string) (kws : list string) (kw : string),
  In kw (firstMatch lower kws) -> In kw kws /\ Js.includes lower kw = true.
Proof.
  intros lower kws kw. unfold firstMatch.
  destruct (find (Js.includes lower) kws) as [k|] eqn:E; [|intros []].
  intros [<- | []]. now apply find_some in E.
Qed.

(** X11. Check-ins with moods of the closed set give a well-formed
    context: the current mood is absent or one of the six, the intensity is
    a number from 2 to 8, at most three keywords are kept, and each of them
    is a keyword of one of the three lists that the lowered summary
    includes. *)
Theorem context_is_well_formed :
  forall (cal : Calendar) (checkIns : list CheckIn)
         (chatMessages : option (list ChatMessage)),
    (forall item, In item checkIns -> In (mood item) MOODS) ->
    let context := buildRecommendationContext cal checkIns chatMessages in
    (currentMood context = None \/
     exists m, currentMood context = Some m /\ In m MOODS) /\
    (exists v, moodIntensity context = Js.Num v /\ 2 <= v <= 8) /\
    (List.length (chatKeywords context) <= 3)%nat /\
    (forall kw, In kw (chatKeywords context) ->
                In kw (CRISIS_KEYWORDS ++ LOW_MOOD_KEYWORDS ++ STRESS_KEYWORDS)%list /\
                Js.includes (Js.toLowerCase (recentChatSummary context)) kw = true).
Proof.
  intros cal checkIns chatMessages Hvalid context.
  unfold context, buildRecommendationContext. fold (datedToday cal).
  cbn [currentMood moodIntensity chatKeywords recentChatSummary].
  set (summary := match chatMessages with
                  | Some messages => _
                  | None => _
                  end).
  assert (Hmood : match filter (datedToday cal) checkIns with
                  | [] => True
                  | item :: _ => In (mood item) MOODS
                  end).
  { destruct (filter (datedToday cal) checkIns) as [|item l] eqn:E; [exact I|].
    apply Hvalid.
    apply (proj1 (filter_In (datedToday cal) item checkIns)).
    rewrite E. now left. }
  destruct (filter (datedToday cal) checkIns) as [|item l].
  - split; [now left|]. split; [exists 5; split; [reflexivity | lia]|].
    split.
    + rewrite analyzeChatSentiment_scans. cbn [keywords]. rewrite !length_app.
      pose proof (firstMatch_length (Js.toLowerCase summary) CRISIS_KEYWORDS).
      pose proof (firstMatch_length (Js.toLowerCase summary) LOW_MOOD_KEYWORDS).
      pose proof (firstMatch_length (Js.toLowerCase summary) STRESS_KEYWORDS).
      lia.
    + intros kw. rewrite analyzeChatSentiment_scans. cbn [keywords].
      rewrite !in_app_iff.
      intros [H | [H | H]]; apply firstMatch_recorded in H; tauto.
  - split; [right; now exists (mood item)|]. split.
    + cbn in Hmood.
      repeat (destruct Hmood as [<- | Hmood];
              [eexists; split; [reflexivity | lia] |]).
      contradiction.
    + split.
      * rewrite analyzeChatSentiment_scans. cbn [keywords]. rewrite !length_app.
        pose proof (firstMatch_length (Js.toLowerCase summary) CRISIS_KEYWORDS).
        pose proof (firstMatch_length (Js.toLowerCase summary) LOW_MOOD_KEYWORDS).
        pose proof (firstMatch_length (Js.toLowerCase summary) STRESS_KEYWORDS).
        lia.
      * intros kw. rewrite analyzeChatSentiment_scans. cbn [keywords].
        rewrite !in_app_iff.
        intros [H | [H | H]]; apply firstMatch_recorded in H; tauto.
Qed.

Lemma context_is_well_formed_witness :
  exists v,
    moodIntensity
      (buildRecommendationContext firstOfNovember
         [mkCheckIn "sad" "2026-11-01T08:30:00"] None) = Js.Num v /\
    2 <= v <= 8.
Proof.
  apply (context_is_well_formed firstOfNovember
           [mkCheckIn "sad" "2026-11-01T08:30:00"] None).
  intros item [<- | []]. cbn. tauto.
Defined.

(** X12. With no check-in dated today and no chat message, every tool gets
    the generic explanation with its own category, and its score is the
    intensity points of the middle tier plus the duration points. *)
Theorem empty_context_generic_recommendation :
  forall (cal : Calendar) (checkIns : list CheckIn) (t : CopingTool),
    (forall item, In item checkIns -> datedToday cal item = false) ->
    let context := buildRecommendationContext cal checkIns (Some []) in
    generateExplanation t context
    = "This " ++ categoryText (category t) ++ " technique is gentle and effective." /\
    scoreTool t context
    = match intensityLevel t with medium => 20 | low => 15 | high => 0 end
      + (if durationMinutes t <=? 3 then 10
         else if durationMinutes t <=? 5 then 5 else 0).
Proof.
  intros cal checkIns t Hnone context.
  assert (Hcontext : context = mkContext None (Js.Num 5) EmptyString []).
  { unfold context, buildRecommendationContext. fold (datedToday cal).
    assert (Hfilter : filter (datedToday cal) checkIns = []).
    { induction checkIns as [|item checkIns IH]; [reflexivity|].
      cbn [filter]. rewrite (Hnone item (or_introl eq_refl)).
      apply IH. intros i Hi. apply Hnone. now right. }
    rewrite Hfilter. reflexivity. }
  rewrite Hcontext. split.
  - unfold generateExplanation, explanationReasons.
    cbn [currentMood recentChatSummary moodIntensity].
    rewrite empty_summary_sentiment. reflexivity.
  - rewrite scoreTool_sum.
    unfold moodCompatibility, sentimentAlignment, intensityMatching, durationPreference.
    cbn [currentMood recentChatSummary moodIntensity].
    rewrite empty_summary_sentiment. cbn [hasCrisis hasLowMood hasStress Js.geb].
    change (7 <=? 5) with false. change (4 <=? 5) with true. cbv iota.
    destruct (intensityLevel t), (durationMinutes t <=? 3), (durationMinutes t <=? 5);
      reflexivity.
Qed.

Lemma empty_context_generic_recommendation_witness :
  generateExplanation bodyScan
    (buildRecommendationContext firstOfNovember
       [mkCheckIn "sad" "2026-10-31T21:15:00"] (Some []))
  = "This grounding technique is gentle and effective.".
Proof.
  apply (empty_context_generic_recommendation firstOfNovember
           [mkCheckIn "sad" "2026-10-31T21:15:00"] bodyScan).
  intros item [<- | []]. reflexivity.
Defined.

(** * The API client *)

Lemma dropTrailingSlash_app : forall (base : string),
  Api.dropTrailingSlash (base ++ "/") = base.
Proof.
  induction base as [|c base IH]; [reflexivity|].
  change (String c base ++ "/") with (String c (base ++ "/")).
  cbn [Api.dropTrailingSlash]. rewrite IH.
  destruct base; reflexivity.
Qed.

Lemma endsWithSlash_app : forall (base : string),
  Api.endsWithSlash (base ++ "/") = true.
Proof.
  induction base as [|c base IH]; [reflexivity|].
  change (String c base ++ "/") with (String c (base ++ "/")).
  cbn [Api.endsWithSlash]. rewrite IH.
  destruct base; reflexivity.
Qed.

Lemma dropTrailingSlash_none : forall (s : string),
  Api.endsWithSlash s = false -> Api.dropTrailingSlash s = s.
Proof.
  induction s as [|c rest IH]; intro Hno; [reflexivity|].
  cbn [Api.dropTrailingSlash Api.endsWithSlash] in *. destruct rest as [|d rest'].
  - now rewrite Hno.
  - now rewrite IH.
Qed.

(** X13. [buildUrl] drops exactly one trailing slash of the base and
    changes nothing else: a base written with a final slash gives the
    base without it followed by the path, and a base that does not end in
    a slash, the empty base included, is put in front of the path as it
    is. *)
Theorem buildUrl_drops_one_trailing_slash :
  forall (base path : string),
    Api.endsWithSlash (base ++ "/") = true /\
    Api.buildUrl (base ++ "/") path = base ++ path /\
    (Api.endsWithSlash base = false -> Api.buildUrl base path = base ++ path).
Proof.
  intros base path. unfold Api.buildUrl. split; [apply endsWithSlash_app | split].
  - rewrite dropTrailingSlash_app. destruct base; reflexivity.
  - intro Hno. destruct (String.eqb_spec base EmptyString) as [-> | _];
      [reflexivity | now rewrite dropTrailingSlash_none].
Qed.

Lemma buildUrl_drops_one_trailing_slash_witness :
  Api.buildUrl "https://api.sahaay.app" "/api/chat/history"
  = "https://api.sahaay.app" ++ "/api/chat/history".
Proof.
  apply (proj2 (proj2 (buildUrl_drops_one_trailing_slash
                         "https://api.sahaay.app" "/api/chat/history"))).
  reflexivity.
Defined.

Lemma spread_empty_authHeaders : forall (getItem : string -> Api.storageRead),
  Api.spread (Api.spread [] (Api.getAuthHeaders getItem)) []
  = Api.getAuthHeaders getItem.
Proof.
  intro getItem. unfold Api.getAuthHeaders.
  destruct (getItem Api.TOKEN_KEY) as [| |token]; try reflexivity.
  destruct (negb (token =? EmptyString)%string); reflexivity.
Qed.

(** X14. Headers passed by the caller replace the default headers: when
    the options carry a [headers] property, [fetch] receives exactly that
    value, so neither the JSON content type nor the stored bearer token is
    sent unless the caller's headers repeat them, and the outcome of the
    call is the same whatever the token storage holds. *)
Theorem caller_headers_replace_defaults :
  forall (T : Type) (base : option string) (getItem1 getItem2 : string -> Api.storageRead)
         (fetch : string -> Api.RequestInit -> Api.fetchResult T)
         (path : string) (options : Api.RequestInit),
    Api.headers options <> Api.Absent ->
    Api.headers (Api.requestInit getItem1 (Some options)) = Api.headers options /\
    Api.apiFetch (Api.mkHost base getItem1 fetch) path (Some options)
    = Api.apiFetch (Api.mkHost base getItem2 fetch) path (Some options).
Proof.
  intros T base getItem1 getItem2 fetch path options Hheaders.
  assert (Hinit : forall getItem,
             Api.requestInit getItem (Some options)
             = Api.mkInit (Api.override (Api.Present (Some "include"))
                                        (Api.credentials options))
                          (Api.headers options)
                          (Api.override Api.Absent (Api.method options))
                          (Api.override Api.Absent (Api.body options))).
  { intro getItem. unfold Api.requestInit.
    destruct (Api.headers options) as [|h]; [now elim Hheaders | reflexivity]. }
  split.
  - now rewrite Hinit.
  - unfold Api.apiFetch. cbn [Api.fetch Api.getItem Api.VITE_API_BASE_URL].
    now rewrite !Hinit.
Qed.

Lemma caller_headers_replace_defaults_witness :
  Api.headers
    (Api.requestInit (fun _ => Api.StorageValue "secret")
       (Some (Api.mkInit Api.Absent (Api.Present (Some [("Accept", "text/csv")]))
                         Api.Absent Api.Absent)))
  = Api.Present (Some [("Accept", "text/csv")]).
Proof.
  apply (caller_headers_replace_defaults unit None
           (fun _ => Api.StorageValue "secret") (fun _ => Api.StorageNull)
           (fun _ _ => Api.FetchRejects "offline") "/api/chat/history"
           (Api.mkInit Api.Absent (Api.Present (Some [("Accept", "text/csv")]))
                       Api.Absent Api.Absent)).
  discriminate.
Defined.

(** X15. Without a [headers] property in the options, [fetch] receives
    the default headers: the JSON content type, and a bearer authorization
    exactly when the storage returns a non-empty token; a storage that
    throws is ignored.  Cookies are included unless the options set
    [credentials]. *)
Theorem default_headers_carry_token :
  forall (getItem : string -> Api.storageRead) (options : option Api.RequestInit),
    (forall o, options = Some o -> Api.headers o = Api.Absent) ->
    exists sent,
      Api.headers (Api.requestInit getItem options) = Api.Present (Some sent) /\
      Api.getProp sent "Content-Type" = Some "application/json" /\
      Api.getProp sent "Authorization"
      = match getItem Api.TOKEN_KEY with
        | Api.StorageValue token =>
            if (token =? EmptyString)%string then None else Some ("Bearer " ++ token)
        | Api.StorageNull => None
        | Api.StorageThrows => None
        end /\
      ((forall o, options = Some o -> Api.credentials o = Api.Absent) ->
       Api.credentials (Api.requestInit getItem options) = Api.Present (Some "include")).
Proof.
  intros getItem options Hnone. exists (Api.getAuthHeaders getItem).
  split; [|split; [|split]].
  - unfold Api.requestInit. destruct options as [o|].
    + rewrite (Hnone o eq_refl). cbn [Api.headers Api.override].
      now rewrite spread_empty_authHeaders.
    + cbn [Api.headers]. now rewrite spread_empty_authHeaders.
  - unfold Api.getAuthHeaders.
    destruct (getItem Api.TOKEN_KEY) as [| |token]; try reflexivity.
    destruct (negb (token =? EmptyString)%string); reflexivity.
  - unfold Api.getAuthHeaders.
    destruct (getItem Api.TOKEN_KEY) as [| |token]; try reflexivity.
    destruct (token =? EmptyString)%string; reflexivity.
  - intro Hcred. unfold Api.requestInit. destruct options as [o|]; [|reflexivity].
    cbn [Api.credentials]. now rewrite (Hcred o eq_refl).
Qed.

Lemma default_headers_carry_token_witness :
  exists sent,
    Api.headers (Api.requestInit (fun _ => Api.StorageValue "secret") None)
    = Api.Present (Some sent) /\
    Api.getProp sent "Authorization" = Some "Bearer secret".
Proof.
  destruct (default_headers_carry_token (fun _ => Api.StorageValue "secret") None)
    as (sent & Hsent & _ & Hauth & _).
  - intros o Ho. discriminate Ho.
  - exists sent. split; [exact Hsent | exact Hauth].
Defined.

(** X16. [apiFetch] resolves exactly when [fetch] resolved with an ok
    response whose body parses, and then with the parsed body.  A response
    that is not ok always rejects with the error "API request failed"
    carrying the response status; its details are the parsed body, or
    undefined when the body does not parse. *)
Theorem apiFetch_settles_by_response :
  forall (T : Type) (host : Api.Host T) (path : string)
         (options : option Api.RequestInit),
    (forall value,
        Api.apiFetch host path options = Api.Resolved value <->
        exists response,
          Api.fetch host (Api.buildUrl (Api.API_BASE_URL (Api.VITE_API_BASE_URL host)) path)
                    (Api.requestInit (Api.getItem host) options)
          = Api.FetchResolves response /\
          Api.ok response = true /\ Api.json response = Api.BodyJson value) /\
    (forall response,
        Api.fetch host (Api.buildUrl (Api.API_BASE_URL (Api.VITE_API_BASE_URL host)) path)
                  (Api.requestInit (Api.getItem host) options)
        = Api.FetchResolves response ->
        Api.ok response = false ->
        Api.apiFetch host path options
        = Api.RejectedApiError "API request failed" (Api.status response)
            (match Api.json response with
             | Api.BodyJson value => Some value
             | Api.BodyFails _ => None
             end)).
Proof.
  intros T host path options. unfold Api.apiFetch. split.
  - intro value. split.
    + destruct (Api.fetch host _ _) as [response | reason]; [|discriminate].
      destruct (Api.ok response) eqn:Hok; cbn [negb]; [|discriminate].
      destruct (Api.json response) as [v | reason] eqn:Hjson; [|discriminate].
      intro H. injection H as <-. exists response. rewrite Hok, Hjson. auto.
    + intros (response & -> & Hok & Hjson). now rewrite Hok, Hjson.
  - intros response -> Hok. now rewrite Hok.
Qed.

Lemma apiFetch_settles_by_response_witness :
  Api.apiFetch
    (Api.mkHost None (fun _ => Api.StorageNull)
       (fun _ _ => Api.FetchResolves (Api.mkResponse false 401 (Api.BodyFails "no body"))))
    "/api/chat/history" None
  = Api.RejectedApiError (T := unit) "API request failed" 401 None.
Proof.
  apply (proj2 (apiFetch_settles_by_response unit
                  (Api.mkHost None (fun _ => Api.StorageNull)
                     (fun _ _ => Api.FetchResolves
                                   (Api.mkResponse false 401 (Api.BodyFails "no body"))))
                  "/api/chat/history" None)
           (Api.mkResponse false 401 (Api.BodyFails "no body")));
    reflexivity.
Defined.

(** * The chat history page *)

Lemma includes_empty : forall (s : string), Js.includes s EmptyString = true.
Proof. intro s. destruct s; reflexivity. Qed.

Lemma includes_infix : forall (x pre s post : string),
  Js.includes x (pre ++ s ++ post) = true -> Js.includes x s = true.
Proof.
  intros x pre s post H. apply includes_spec in H. destruct H as (a & b & ->).
  apply includes_spec. exists (a ++ pre), (post ++ b).
  now rewrite !string_app_assoc.
Qed.

Lemma matchesSearch_infix : forall (pre s post : string) (item : History.DailySummary),
  History.matchesSearch (pre ++ s ++ post) item = true ->
  History.matchesSearch s item = true.
Proof.
  intros pre s post item. unfold History.matchesSearch.
  rewrite !orb_true_iff, !toLowerCase_app.
  intros [H | H]; [left | right]; eapply includes_infix; eassumption.
Qed.

Lemma filter_narrowed : forall (A : Type) (p q : A -> bool) (l : list A),
  (forall x, p x = true -> q x = true) ->
  filter p l = filter p (filter q l).
Proof.
  intros A p q l Hpq. induction l as [|x l IH]; [reflexivity|].
  cbn [filter]. destruct (p x) eqn:Hp.
  - rewrite (Hpq x Hp). cbn [filter]. rewrite Hp. now f_equal.
  - destruct (q x); [cbn [filter]; now rewrite Hp | exact IH].
Qed.

(** X17. An empty search box filters nothing: every day of the history is
    listed, in the order received. *)
Theorem empty_search_lists_everything :
  forall (st : History.PageState),
    History.search st = EmptyString ->
    History.filteredHistory st = History.historyState st.
Proof.
  intros st Hsearch. unfold History.filteredHistory. rewrite Hsearch.
  induction (History.historyState st) as [|item l IH]; [reflexivity|].
  cbn [filter]. unfold History.matchesSearch at 1.
  cbn [Js.toLowerCase]. rewrite includes_empty. cbn [orb]. now rewrite IH.
Qed.

Lemma empty_search_lists_everything_witness :
  History.filteredHistory
    (History.mkPage [History.mkSummary "d1" "2026-10-31" "A calm day" ["calm"] 4]
                    false false EmptyString)
  = [History.mkSummary "d1" "2026-10-31" "A calm day" ["calm"] 4].
Proof.
  apply (empty_search_lists_everything
           (History.mkPage [History.mkSummary "d1" "2026-10-31" "A calm day" ["calm"] 4]
                           false false EmptyString)).
  reflexivity.
Defined.

(** X18. Typing more never brings a day back.  For summaries and search
    texts of ASCII characters, the days listed for a search text that
    contains an earlier search text are among the days listed for the
    earlier one, in the same order. *)
Theorem longer_search_narrows :
  forall (st : History.PageState) (pre s post : string),
    isAscii (pre ++ s ++ post) = true ->
    (forall item, In item (History.historyState st) ->
                  isAscii (History.summary item) = true) ->
    History.filteredHistory (History.setSearch (pre ++ s ++ post) st)
    = filter (History.matchesSearch (pre ++ s ++ post))
             (History.filteredHistory (History.setSearch s st)).
Proof.
  intros st pre s post _ _. unfold History.filteredHistory, History.setSearch.
  cbn [History.search History.historyState].
  apply filter_narrowed. intros item. apply matchesSearch_infix.
Qed.

Lemma longer_search_narrows_witness :
  History.filteredHistory
    (History.setSearch ("c" ++ "al" ++ "m")
       (History.mkPage [History.mkSummary "d1" "2026-10-31" "A CALM day" ["calm"] 4]
                       false false EmptyString))
  = filter (History.matchesSearch ("c" ++ "al" ++ "m"))
      (History.filteredHistory
         (History.setSearch "al"
            (History.mkPage [History.mkSummary "d1" "2026-10-31" "A CALM day" ["calm"] 4]
                            false false EmptyString))).
Proof.
  apply (longer_search_narrows
           (History.mkPage [History.mkSummary "d1" "2026-10-31" "A CALM day" ["calm"] 4]
                           false false EmptyString) "c" "al" "m").
  - reflexivity.
  - intros item [<- | []]. reflexivity.
Defined.

(** X19. For a summary and a search text of ASCII characters, a day
    matches the search when a stretch of its summary equals the search text
    up to the case of the letters, or its day key contains the search text
    as typed; nothing else matches. *)
Theorem search_matches_summary_or_day :
  forall (search : string) (item : History.DailySummary),
    isAscii (History.summary item) = true ->
    isAscii search = true ->
    (History.matchesSearch search item = true <->
     (exists pre mid post,
         History.summary item = pre ++ mid ++ post /\
         equalIgnoringCase mid search = true) \/
     (exists pre post, History.dayKey item = pre ++ search ++ post)).
Proof.
  intros search item _ _. unfold History.matchesSearch.
  rewrite orb_true_iff, includes_toLowerCase, includes_spec.
  split.
  - intros [(pre & mid & post & Hsum & Hmid) | H]; [left | now right].
    exists pre, mid, post. split; [exact Hsum|].
    now apply equalIgnoringCase_toLowerCase.
  - intros [(pre & mid & post & Hsum & Hmid) | H]; [left | now right].
    exists pre, mid, post. split; [exact Hsum|].
    now apply equalIgnoringCase_toLowerCase.
Qed.

Lemma search_matches_summary_or_day_witness :
  History.matchesSearch "Calm"
    (History.mkSummary "d1" "2026-10-31" "A CALM day" ["calm"] 4) = true.
Proof.
  apply (search_matches_summary_or_day "Calm"
           (History.mkSummary "d1" "2026-10-31" "A CALM day" ["calm"] 4)).
  - reflexivity.
  - reflexivity.
  - left. exists "A ", "CALM", " day". split; reflexivity.
Defined.

(** X20. When [fetchHistory] is over, neither the loading flag nor the
    refreshing flag is left raised and the search text is untouched,
    however the request settled; a resolved request replaces the history
    by the one received, or by the empty list when the body has none, and
    a rejected request leaves the history as it was. *)
Theorem fetchHistory_clears_flags :
  forall (host : Api.Host History.HistoryResponse) (isRefresh : bool)
         (st : History.PageState),
    let st' := History.fetchHistory host isRefresh st in
    History.loading st' = false /\
    History.refreshing st' = false /\
    History.search st' = History.search st /\
    History.historyState st'
    = match Api.apiFetch host "/api/chat/history" None with
      | Api.Resolved res =>
          match History.history res with Some h => h | None => [] end
      | Api.RejectedApiError _ _ _ => History.historyState st
      | Api.Rejected _ => History.historyState st
      end.
Proof.
  intros host isRefresh st. unfold History.fetchHistory.
  destruct (Api.apiFetch host "/api/chat/history" None) as [res | msg code details | reason];
    destruct isRefresh; repeat split.
Qed.

(** X21. A first load that fails looks like an empty history: when [fetch]
    rejects or answers with a response that is not ok, the page leaves the
    skeleton and shows "No history found" with the invitation to start a
    conversation; the failure itself is not shown. *)
Theorem failed_first_load_shows_empty_history :
  forall (host : Api.Host History.HistoryResponse),
    (forall response,
        Api.fetch host
          (Api.buildUrl (Api.API_BASE_URL (Api.VITE_API_BASE_URL host)) "/api/chat/history")
          (Api.requestInit (Api.getItem host) None)
        = Api.FetchResolves response -> Api.ok response = false) ->
    History.render (History.fetchHistory host false History.initialState)
    = History.NoHistory "Start chatting with Sahaay to see your history here!" true.
Proof.
  intros host Hfail. unfold History.fetchHistory, Api.apiFetch.
  destruct (Api.fetch host _ _) as [response | reason] eqn:Hfetch.
  - rewrite (Hfail response eq_refl). reflexivity.
  - reflexivity.
Qed.

Lemma failed_first_load_shows_empty_history_witness :
  History.render
    (History.fetchHistory
       (Api.mkHost None (fun _ => Api.StorageNull)
          (fun _ _ => Api.FetchResolves (Api.mkResponse false 500 (Api.BodyFails "html"))))
       false History.initialState)
  = History.NoHistory "Start chatting with Sahaay to see your history here!" true.
Proof.
  apply failed_first_load_shows_empty_history.
  intros response H. cbn in H. injection H as <-. reflexivity.
Defined.
